(** * Weather records: normalisation, validation, storage and the REST router

    A shallow embedding of the weather slice of the application:

    - [fetchWeather]            (weatherService.js)  the Normalizer,
    - [weatherSchema]           (validation.js)      the Validation Layer,
    - [Weather]                 (models/weather.js)  the Mongoose model,
    - the six handlers of       (routes/weatherRoutes.js).

    The handlers are thin glue over zod, Mongoose, axios and Express.  The
    parts of those libraries that the handlers exercise are modelled next to
    the code that calls them, each with a note saying which documented
    behaviour of the library the definition follows. *)

From stdpp Require Import base strings list gmap sorting pretty.

Local Set Warnings "-register-all".
Local Open Scope string_scope.
Local Open Scope Z_scope.
Local Open Scope list_scope.

(** ** JavaScript values *)

Module JS.

(** A JavaScript number is an IEEE-754 double.  Every finite double is
    [m * 2^e] for integers [m] and [e]; the program never does arithmetic on
    the numbers it carries, it only classifies them, so no rounding is
    modelled. *)
Inductive number :=
  | NaN
  | Infinity (negative : bool)
  | Finite (m e : Z).

Definition zero : number := Finite 0 0.

(** The integer a finite number denotes, when it denotes one. *)
Definition to_Z (n : number) : option Z :=
  match n with
  | Finite m e =>
      if 0 <=? e then Some (m * 2 ^ e)
      else if m mod 2 ^ (- e) =? 0 then Some (m / 2 ^ (- e))
      else None
  | _ => None
  end.

(** [Number.isInteger] *)
Definition isInteger (n : number) : bool :=
  match to_Z n with Some _ => true | None => false end.

(** [Number.isNaN] *)
Definition isNaN (n : number) : bool :=
  match n with NaN => true | _ => false end.

(** Values, as far as JSON bodies, provider responses and [Date] objects
    need them.  A string is its sequence of UTF-16 code units, of which
    the model has those below 256, so that [String.length] is the [length]
    of JavaScript.  [VDate None] is an Invalid Date; [VDate (Some t)] holds
    the time value [t] in milliseconds since the epoch.  An object is the
    list of its own enumerable properties in insertion order. *)
Inductive value :=
  | VUndefined
  | VNull
  | VBool (b : bool)
  | VNum (n : number)
  | VStr (s : string)
  | VDate (t : option Z)
  | VArr (items : list value)
  | VObj (props : list (string * value)).

(** First binding of [k] in a property list. *)
Fixpoint assoc {A} (k : string) (o : list (string * A)) : option A :=
  match o with
  | [] => None
  | (k', v) :: o' => if String.eqb k k' then Some v else assoc k o'
  end.

(** The code units of a string, each as a one-character string. *)
Fixpoint chars (s : string) : list value :=
  match s with
  | EmptyString => []
  | String c s' => VStr (String c EmptyString) :: chars s'
  end.

(** Own enumerable properties, the ones [{...rest}] copies: the properties
    of an object, the indices of an array or of a string, nothing for the
    other primitives and for dates. *)
Definition own_props (v : value) : list (string * value) :=
  match v with
  | VObj o => o
  | VArr l => imap (λ i x, (pretty i, x)) l
  | VStr s => imap (λ i x, (pretty i, x)) (chars s)
  | _ => []
  end.

(** Value of a string of decimal digits. *)
Fixpoint digits_value (acc : Z) (s : string) : option Z :=
  match s with
  | EmptyString => Some acc
  | String c s' =>
      let d := Z.of_N (Ascii.N_of_ascii c) - 48 in
      if (0 <=? d) && (d <=? 9) then digits_value (10 * acc + d) s' else None
  end.

(** The element a property key selects in an array: the key must be the
    canonical decimal form of an index within bounds. *)
Definition at_index {A} (l : list A) (k : string) : option A :=
  match digits_value 0 k with
  | Some i =>
      if String.eqb (pretty (Z.to_N i)) k && (i <? Z.of_nat (length l))
      then l !! Z.to_nat i
      else None
  | None => None
  end.

(** [v.k] and [v[k]]: an own property, or [length] of arrays and strings.
    Members inherited from prototypes are left out; none of the names the
    program reads is one.  Reading a property of [null] or [undefined]
    throws in JavaScript; the definitions below test for these two before
    they read, and [get] itself answers [undefined] there. *)
Definition get (v : value) (k : string) : value :=
  match v with
  | VObj o => default VUndefined (assoc k o)
  | VArr l =>
      if String.eqb k "length" then VNum (Finite (Z.of_nat (length l)) 0)
      else default VUndefined (at_index l k)
  | VStr s =>
      if String.eqb k "length" then VNum (Finite (Z.of_nat (String.length s)) 0)
      else default VUndefined (at_index (chars s) k)
  | _ => VUndefined
  end.

(** [v == null] *)
Definition nullish (v : value) : bool :=
  match v with VUndefined | VNull => true | _ => false end.

(** ToBoolean *)
Definition truthy (v : value) : bool :=
  match v with
  | VUndefined | VNull => false
  | VBool b => b
  | VNum NaN => false
  | VNum (Infinity _) => true
  | VNum (Finite m _) => negb (m =? 0)
  | VStr s => negb (String.eqb s "")
  | VDate _ | VArr _ | VObj _ => true
  end.

(** [a ?. k] *)
Definition opt_get (a : value) (k : string) : value :=
  if nullish a then VUndefined else get a k.

(** [a ?? b] *)
Definition coalesce (a b : value) : value := if nullish a then b else a.

(** [a || b] *)
Definition or_else (a b : value) : value := if truthy a then a else b.

(** A variable of [process.env], or a query parameter, read as a value. *)
Definition of_option (s : option string) : value :=
  match s with Some x => VStr x | None => VUndefined end.

(** StringToNumber on the literals the model covers: one to fifteen decimal
    digits, which denote an integer below [2^53] and therefore convert
    exactly.  [None] means that the literal is outside this fragment
    (signs, fractions, exponents, radix prefixes, blanks, text), not that
    JavaScript fails. *)
Definition StringToNumber (s : string) : option number :=
  if (1 <=? String.length s)%nat && (String.length s <=? 15)%nat
  then (λ z, Finite z 0) <$> digits_value 0 s
  else None.

(** [Number(v)], on the same fragment. *)
Definition Number (v : value) : option number :=
  match v with
  | VNum n => Some n
  | VStr s => StringToNumber s
  | VUndefined => Some NaN
  | VNull => Some zero
  | VBool b => Some (Finite (if b then 1 else 0) 0)
  | _ => None
  end.

End JS.

Import JS.

Notation "a .[ k ]" := (get a k) (at level 1, format "a .[ k ]").
Notation "a ?.[ k ]" := (opt_get a k) (at level 1, format "a ?.[ k ]").
Notation "a ?? b" := (coalesce a b) (at level 45, right associativity).
Notation "a ||: b" := (or_else a b) (at level 46, right associativity).

(** ** The canonical record *)

(** The eleven fields every component agrees on: the output type of
    [weatherSchema] and the payload of a stored document.  [fetchedAt] is
    the time value of a valid [Date]. *)
Record Coordinates := { lon : number; lat : number }.

Record WeatherData := {
  city : string;
  country : string;
  coordinates : Coordinates;
  temp : number;
  feelsLike : number;
  humidity : number;
  pressure : number;
  windSpeed : number;
  condition : string;
  description : string;
  fetchedAt : Z;
}.

(** The object literal with exactly these fields, as a client writes it. *)
Definition props_of (d : WeatherData) : list (string * value) :=
  [ ("city", VStr (city d));
    ("country", VStr (country d));
    ("coordinates", VObj [ ("lon", VNum (lon (coordinates d)));
                           ("lat", VNum (lat (coordinates d))) ]);
    ("temp", VNum (temp d));
    ("feelsLike", VNum (feelsLike d));
    ("humidity", VNum (humidity d));
    ("pressure", VNum (pressure d));
    ("windSpeed", VNum (windSpeed d));
    ("condition", VStr (condition d));
    ("description", VStr (description d));
    ("fetchedAt", VDate (Some (fetchedAt d))) ].

(** ** The Validation Layer (validation.js) *)

Module z.

(** zod reports every failing field, each as an issue with the path of the
    field.  The checks and codes are those of zod 3: a wrong type, [NaN]
    and a non-integer under [.int()] are [invalid_type]; a string shorter
    than [.min(n)] is [too_small]; an Invalid Date is [invalid_date].
    (zod 4 also refuses infinities and integers beyond [2^53]; nothing
    below depends on those.) *)
Inductive issue_code := invalid_type | too_small | invalid_date.

Record ZodIssue := { code : issue_code; path : list string }.

Inductive parsed (A : Type) :=
  | Valid (a : A)
  | Invalid (issues : list ZodIssue).
Arguments Valid {A} a.
Arguments Invalid {A} issues.

Definition issues_of {A} (p : parsed A) : list ZodIssue :=
  match p with Valid _ => [] | Invalid i => i end.

Definition is_valid {A} (p : parsed A) : bool :=
  match p with Valid _ => true | Invalid _ => false end.

(** A schema parses the value found at a path. *)
Definition schema (A : Type) := list String.string → value → parsed A.

Definition fail {A} (c : issue_code) (p : list String.string) : parsed A :=
  Invalid [ {| code := c; path := p |} ].

(** [z.string()] *)
Definition string : schema String.string := λ p v,
  match v with VStr s => Valid s | _ => fail invalid_type p end.

(** [z.string().min(n)] *)
Definition string_min (n : nat) : schema String.string := λ p v,
  match v with
  | VStr s => if (n <=? String.length s)%nat then Valid s else fail too_small p
  | _ => fail invalid_type p
  end.

(** [z.number()]: [typeof v === "number"] and not [NaN] *)
Definition number : schema JS.number := λ p v,
  match v with
  | VNum n => if isNaN n then fail invalid_type p else Valid n
  | _ => fail invalid_type p
  end.

(** [z.number().int()] *)
Definition number_int : schema JS.number := λ p v,
  match v with
  | VNum n => if isNaN n then fail invalid_type p
              else if isInteger n then Valid n else fail invalid_type p
  | _ => fail invalid_type p
  end.

(** [z.date()]: a [Date] instance whose time value is not [NaN] *)
Definition date : schema Z := λ p v,
  match v with
  | VDate (Some t) => Valid t
  | VDate None => fail invalid_date p
  | _ => fail invalid_type p
  end.

(** The members of an object schema: each reads its own key of the input
    object; all of them run and their issues are concatenated.  Keys of the
    input that no member reads do not reach the output (zod's default
    "strip" mode). *)
Definition members (A : Type) := list String.string → value → parsed A.

Definition field {A} (k : String.string) (s : schema A) : members A :=
  λ p v, s (p ++ [k]) (get v k).

(** Two results side by side: valid when both are, else the issues of
    both. *)
Definition both {A B} (a : parsed A) (b : parsed B) : parsed (A * B) :=
  match a, b with
  | Valid x, Valid y => Valid (x, y)
  | _, _ => Invalid (issues_of a ++ issues_of b)
  end.

Definition and_then {A B} (f : members A) (g : members B) : members (A * B) :=
  λ p v, both (f p v) (g p v).

Definition map {A B} (h : A → B) (p : parsed A) : parsed B :=
  match p with Valid a => Valid (h a) | Invalid i => Invalid i end.

(** [z.object({...})]: the input must be a plain object *)
Definition object {A B} (build : A → B) (ms : members A) : schema B := λ p v,
  match v with
  | VObj _ => map build (ms p v)
  | _ => fail invalid_type p
  end.

End z.

Infix "&:" := z.and_then (at level 60, right associativity).

(** What a handler can throw: an error made by [createError], zod's
    [ZodError], Mongoose's [CastError] (a value that does not cast, here an
    id) and [ValidationError] (the paths that failed a validator), a
    [TypeError] of JavaScript itself, and the error axios throws. *)
Inductive error :=
  | HttpError (status : nat) (message : string)
  | ZodError (issues : list z.ZodIssue)
  | CastError (path : string)
  | ValidationError (paths : list string)
  | TypeError
  | AxiosError (status : option nat).

Module weatherSchema.

Definition coordinates_of '(x, y) : Coordinates := {| lon := x; lat := y |}.

Definition record_of
    '(c, (k, (xy, (t, (f, (h, (p, (w, (cond, (descr, at_)))))))))) : WeatherData :=
  {| city := c; country := k; coordinates := xy; temp := t; feelsLike := f;
     humidity := h; pressure := p; windSpeed := w; condition := cond;
     description := descr; fetchedAt := at_ |}.

(** The nested [z.object({ lon: z.number(), lat: z.number() })] *)
Definition coordinates_schema : z.schema Coordinates :=
  z.object coordinates_of (
    z.field "lon" z.number &:
    z.field "lat" z.number).

(** [export const weatherSchema = z.object({ ... })] *)
Definition schema : z.schema WeatherData :=
  z.object record_of (
    z.field "city" z.string &:
    z.field "country" (z.string_min 2) &:
    z.field "coordinates" coordinates_schema &:
    z.field "temp" z.number &:
    z.field "feelsLike" z.number &:
    z.field "humidity" z.number_int &:
    z.field "pressure" z.number_int &:
    z.field "windSpeed" z.number &:
    z.field "condition" z.string &:
    z.field "description" z.string &:
    z.field "fetchedAt" z.date).

(** [weatherSchema.parse(input)]: the typed object, or a thrown [ZodError] *)
Definition parse (input : value) : error + WeatherData :=
  match schema [] input with
  | z.Valid d => inr d
  | z.Invalid issues => inl (ZodError issues)
  end.

End weatherSchema.

(** ** The store (models/weather.js) *)

(** A MongoDB ObjectId is a 12-byte number; clients name it by 24
    hexadecimal digits. *)
Definition ObjectId := N.

Definition hex_digit (c : Ascii.ascii) : option N :=
  let n := Ascii.N_of_ascii c in
  if (48 <=? n)%N && (n <=? 57)%N then Some (n - 48)%N
  else if (97 <=? n)%N && (n <=? 102)%N then Some (n - 87)%N
  else if (65 <=? n)%N && (n <=? 70)%N then Some (n - 55)%N
  else None.

Fixpoint hex_value (acc : N) (s : string) : option N :=
  match s with
  | EmptyString => Some acc
  | String c s' =>
      match hex_digit c with
      | Some d => hex_value (16 * acc + d)%N s'
      | None => None
      end
  end.

(** Mongoose casts the [:id] of a route to an ObjectId before it queries;
    a string casts when it is 24 hexadecimal digits (bson 5 and later), and
    the cast of any other string throws a [CastError]. *)
Definition castObjectId (id : string) : option ObjectId :=
  if (String.length id =? 24)%nat then hex_value 0 id else None.

(** What the collection keeps under an [_id]: the canonical fields, the
    [createdAt] and [updatedAt] that [{ timestamps: true }] maintains, and
    Mongoose's version key. *)
Record Document := {
  data : WeatherData;
  createdAt : Z;
  updatedAt : Z;
  __v : Z;
}.

(** A document as a query returns it. *)
Record WeatherDoc := { _id : ObjectId; document : Document }.

(** The mutable world of a request: the collection, keyed by [_id] (MongoDB
    keeps [_id] unique), and the requests sent to the weather provider so
    far. *)
Record World := {
  collection : gmap N Document;
  provider_calls : list (value * string);
}.

(** The world with its collection replaced. *)
Definition with_collection (c : gmap N Document) (w : World) : World :=
  {| collection := c; provider_calls := provider_calls w |}.

(** What a request reads and cannot change: [process.env], the clock, and
    the provider's answer to a query for a city with an API key
    ([Resolved data] for a 2xx answer, [Rejected status] otherwise, where
    [status] is what [err.status] reads on the error axios throws). *)
Inductive AxiosResult :=
  | Resolved (response_data : value)
  | Rejected (status : option nat).

Record Env := {
  OPENWEATHER_API_KEY : option string;
  DEFAULT_CITY : option string;
  Date_now : Z;
  provider : value → string → AxiosResult;
}.

(** ** Handlers run in a state monad with exceptions *)

Definition M (A : Type) := World → (error + A) * World.

(** A handler step reads and changes the world and either returns or
    throws; a throw keeps the changes made so far. *)
Definition ret {A} (a : A) : M A := λ w, (inr a, w).
Definition throw {A} (e : error) : M A := λ w, (inl e, w).
Definition bind {A B} (m : M A) (k : A → M B) : M B := λ w,
  match m w with
  | (inr a, w') => k a w'
  | (inl e, w') => (inl e, w')
  end.
Definition lift {A} (r : error + A) : M A := λ w, (r, w).

Notation "'let*' x ':=' m 'in' k" := (bind m (λ x, k))
  (at level 10, x name, m at level 100, k at level 200).
Notation "'let*' ' p ':=' m 'in' k" := (bind m (λ p, k))
  (at level 10, p strict pattern, m at level 100, k at level 200).

Module Weather.

(** [required: true] on a String path: Mongoose's
    [SchemaString.checkRequired] accepts a string of positive length, so
    the required validator fails for the empty string. *)
Definition checkRequired (s : string) : bool := negb (String.eqb s "").

(** A Number path casts every number but [NaN]. *)
Definition castNumber (n : number) : bool := negb (isNaN n).

(** A path is reported when its check fails. *)
Definition check (ok : bool) (path : string) : list string :=
  if ok then [] else [path].

(** The paths of [WeatherSchema] that reject the given fields.  [city] and
    [country] are required strings, the two coordinates required numbers,
    the rest plain [Number] and [String] paths; [fetchedAt] is a valid date
    by its type here. *)
Definition invalid_paths (d : WeatherData) : list string :=
  check (checkRequired (city d)) "city" ++
  check (checkRequired (country d)) "country" ++
  check (castNumber (lon (coordinates d))) "coordinates.lon" ++
  check (castNumber (lat (coordinates d))) "coordinates.lat" ++
  check (castNumber (temp d)) "temp" ++
  check (castNumber (feelsLike d)) "feelsLike" ++
  check (castNumber (humidity d)) "humidity" ++
  check (castNumber (pressure d)) "pressure" ++
  check (castNumber (windSpeed d)) "windSpeed".

(** Validation of a document on save, and of an update under
    [runValidators: true]: a [ValidationError] naming the failing paths. *)
Definition validate (d : WeatherData) : M unit :=
  match invalid_paths d with
  | [] => ret tt
  | paths => throw (ValidationError paths)
  end.

(** The cast of the [_id] in a query by id. *)
Definition castId (id : string) : M ObjectId :=
  match castObjectId id with
  | Some oid => ret oid
  | None => throw (CastError "_id")
  end.

(** [Weather.create(parsed)]: validate, take a new [_id], stamp both
    timestamps, insert.  [new ObjectId()] is taken to be an id that no
    document of the collection has. *)
Definition create (env : Env) (d : WeatherData) : M WeatherDoc :=
  let* _ := validate d in
  λ w,
    let oid := fresh (dom (collection w)) in
    let doc := {| data := d; createdAt := Date_now env;
                  updatedAt := Date_now env; __v := 0 |} in
    (inr {| _id := oid; document := doc |},
     with_collection (<[oid := doc]> (collection w)) w).

(** [Weather.findById(id)] *)
Definition findById (id : string) : M (option WeatherDoc) :=
  let* oid := castId id in
  λ w, (inr ((λ doc, {| _id := oid; document := doc |}) <$> collection w !! oid), w).

(** [Weather.findByIdAndUpdate(id, parsed, { new: true, runValidators: true })]:
    the update sets every field of [parsed]; the update validators run on
    the paths it sets; [updatedAt] is refreshed; the updated document is
    returned, or [null] when no document has this [_id]. *)
Definition findByIdAndUpdate (env : Env) (id : string) (d : WeatherData)
  : M (option WeatherDoc) :=
  let* oid := castId id in
  let* _ := validate d in
  λ w,
    match collection w !! oid with
    | None => (inr None, w)
    | Some old =>
        let doc := {| data := d; createdAt := createdAt old;
                      updatedAt := Date_now env; __v := __v old |} in
        (inr (Some {| _id := oid; document := doc |}),
         with_collection (<[oid := doc]> (collection w)) w)
    end.

(** [Weather.findByIdAndDelete(id)]: the removed document, or [null] *)
Definition findByIdAndDelete (id : string) : M (option WeatherDoc) :=
  let* oid := castId id in
  λ w,
    match collection w !! oid with
    | None => (inr None, w)
    | Some old =>
        (inr (Some {| _id := oid; document := old |}),
         with_collection (delete oid (collection w)) w)
    end.

(** The documents of the collection, in no particular order. *)
Definition all (w : World) : list WeatherDoc :=
  (λ kv, {| _id := kv.1; document := kv.2 |}) <$> map_to_list (collection w).

(** The filter of [Weather.find(query)]: [{}] or [{ city }]. *)
Definition matches (query : option string) (d : WeatherDoc) : bool :=
  match query with
  | None => true
  | Some c => String.eqb (city (data (document d))) c
  end.

(** [.sort({ fetchedAt: -1 })] *)
Definition newest_first (a b : WeatherDoc) : Prop :=
  fetchedAt (data (document b)) ≤ fetchedAt (data (document a)).

Global Instance newest_first_dec a b : Decision (newest_first a b).
Proof. unfold newest_first. apply _. Defined.

(** [.limit(n)]: MongoDB returns at most [n] documents for a positive
    integer [n], and reads a limit of 0 as no limit.  Other numbers are
    outside the model ([None]). *)
Definition limit (n : number) (l : list WeatherDoc) : option (list WeatherDoc) :=
  match to_Z n with
  | Some k => if k =? 0 then Some l
              else if 0 <? k then Some (take (Z.to_nat k) l) else None
  | None => None
  end.

(** [Weather.find(query)] *)
Definition find (query : option string) (w : World) : list WeatherDoc :=
  filter (λ d, matches query d) (all w).

(** [await Weather.find(query).sort({ fetchedAt: -1 }).limit(n)] *)
Definition find_sort_limit (query : option string) (n : number) (w : World)
  : option (list WeatherDoc) :=
  limit n (merge_sort newest_first (find query w)).

End Weather.

(** ** The Normalizer (weatherService.js) *)

Module axios.

(** [await axios.get(url, { params })] with
    [params = { q: city, appid: apiKey, units: "metric" }]: one request to
    the provider; a non-2xx answer is thrown. *)
Definition get (env : Env) (city : value) (apiKey : string) : M value := λ w,
  (match provider env city apiKey with
   | Resolved response_data => inr response_data
   | Rejected st => inl (AxiosError st)
   end,
   {| collection := collection w;
      provider_calls := provider_calls w ++ [(city, apiKey)] |}).

End axios.

(** [export async function fetchWeather({ city, apiKey })].  Reading
    [data.name] throws a [TypeError] when the answer has no body. *)
Definition fetchWeather (env : Env) (city : value) (apiKey : string) : M value :=
  let* data := axios.get env city apiKey in
  if nullish data then throw TypeError else
  ret (VObj [
    ("city", data.["name"]);
    ("country", data.["sys"]?.["country"] ?? VStr "NA");
    ("coordinates", VObj [
      ("lon", data.["coord"]?.["lon"] ?? VNum zero);
      ("lat", data.["coord"]?.["lat"] ?? VNum zero) ]);
    ("temp", data.["main"]?.["temp"] ?? VNum zero);
    ("feelsLike", data.["main"]?.["feels_like"] ?? VNum zero);
    ("humidity", data.["main"]?.["humidity"] ?? VNum zero);
    ("pressure", data.["main"]?.["pressure"] ?? VNum zero);
    ("windSpeed", data.["wind"]?.["speed"] ?? VNum zero);
    ("condition", data.["weather"]?.["0"]?.["main"] ?? VStr "Unknown");
    ("description", data.["weather"]?.["0"]?.["description"] ?? VStr "Unknown");
    ("fetchedAt", VDate (Some (Date_now env))) ]).

(** ** The router (routes/weatherRoutes.js) *)

(** What a handler passes to [res.json]. *)
Inductive json :=
  | JDoc (doc : WeatherDoc)
  | JDocs (docs : list WeatherDoc)
  | JDeleted (id : ObjectId).

Record Response := { status : nat; body : json }.

(** [createError(status, message)] *)
Definition createError (status : nat) (message : string) : error :=
  HttpError status message.

(** [req.query] of [GET /]. *)
Record Query := { q_city : option string; q_limit : option string }.

Module router.

(** [const { manual, ...rest } = req.body]: throws on [undefined] and
    [null]; [rest] has the own enumerable properties but [manual]. *)
Definition destructure (req_body : value) : M (value * value) :=
  if nullish req_body then throw TypeError
  else ret (req_body.["manual"],
            VObj (filter (λ kv, kv.1 ≠ "manual") (own_props req_body))).

(** The part of the handlers that needs the Normalizer:
    the API key is read from the environment at request time. *)
Definition fetch_candidate (env : Env) (city : value) : M value :=
  match OPENWEATHER_API_KEY env with
  | Some apiKey =>
      if truthy (VStr apiKey) then fetchWeather env city apiKey
      else throw (createError 500 "Missing OPENWEATHER_API_KEY")
  | None => throw (createError 500 "Missing OPENWEATHER_API_KEY")
  end.

(** [router.get("/", ...)].  [None] when [Number(limit)] or the limit
    itself is outside the model. *)
Definition get_root (req_query : Query) (w : World) : option ((error + Response) * World) :=
  let city := q_city req_query in
  let limit := match q_limit req_query with Some s => VStr s | None => VNum (Finite 50 0) end in
  let query := if truthy (of_option city) then city else None in
  n ← Number limit;
  docs ← Weather.find_sort_limit query n w;
  Some (inr {| status := 200; body := JDocs docs |}, w).

(** [router.post("/", ...)] *)
Definition post_root (env : Env) (req_body : value) : M Response :=
  let* '(manual, rest) := destructure req_body in
  let* candidate :=
    if truthy manual then ret rest
    else
      let city := rest.["city"] ||: of_option (DEFAULT_CITY env) ||: VStr "Philadelphia" in
      fetch_candidate env city in
  let* parsed := lift (weatherSchema.parse candidate) in
  let* created := Weather.create env parsed in
  ret {| status := 201; body := JDoc created |}.

(** [router.get("/:id", ...)] *)
Definition get_id (id : string) : M Response :=
  let* doc := Weather.findById id in
  match doc with
  | None => throw (createError 404 "Weather record not found")
  | Some d => ret {| status := 200; body := JDoc d |}
  end.

(** [router.put("/:id", ...)] *)
Definition put_id (env : Env) (id : string) (req_body : value) : M Response :=
  let* parsed := lift (weatherSchema.parse req_body) in
  let* updated := Weather.findByIdAndUpdate env id parsed in
  match updated with
  | None => throw (createError 404 "Weather record not found")
  | Some d => ret {| status := 200; body := JDoc d |}
  end.

(** [router.delete("/:id", ...)] *)
Definition delete_id (id : string) : M Response :=
  let* removed := Weather.findByIdAndDelete id in
  match removed with
  | None => throw (createError 404 "Weather record not found")
  | Some d => ret {| status := 200; body := JDeleted (_id d) |}
  end.

(** [router.post("/fetch", ...)] *)
Definition post_fetch (env : Env) (query_city : option string) : M Response :=
  let city := of_option query_city ||: of_option (DEFAULT_CITY env) ||: VStr "Philadelphia" in
  let* normalized := fetch_candidate env city in
  let* parsed := lift (weatherSchema.parse normalized) in
  let* saved := Weather.create env parsed in
  ret {| status := 201; body := JDoc saved |}.

End router.

(** ** Express around a handler *)

(** Every handler body is inside [try { ... } catch (err) { next(err) }],
    and the application installs no error middleware, so [next(err)]
    reaches Express's default handler: the response status is
    [err.status] when that is a 4xx or 5xx number, and 500 otherwise. *)
Definition err_status (err : error) : option nat :=
  match err with
  | HttpError st _ => Some st
  | AxiosError st => st
  | _ => None
  end.

Definition default_error_status (err : error) : nat :=
  match err_status err with
  | Some st => if (400 <=? st)%nat && (st <? 600)%nat then st else 500%nat
  | None => 500%nat
  end.

Definition http_status (outcome : error + Response) : nat :=
  match outcome with
  | inr res => status res
  | inl err => default_error_status err
  end.

(** ** The schema as the specification words it *)

(** These definitions follow the sentences of the specification, not the
    code; the theorems below compare them with [weatherSchema]. *)
Module Spec.

(** "a string" *)
Definition is_string (v : value) : bool :=
  match v with VStr _ => true | _ => false end.

(** "a string of length at least [n]" *)
Definition is_string_of_length_at_least (n : nat) (v : value) : bool :=
  match v with VStr s => (n <=? String.length s)%nat | _ => false end.

(** "a number": of type number and not [NaN] *)
Definition is_number (v : value) : bool :=
  match v with VNum n => negb (isNaN n) | _ => false end.

(** "an integer": a number without a fractional part *)
Definition is_integer (v : value) : bool :=
  match v with VNum n => isInteger n | _ => false end.

(** "a valid date": a [Date] that holds a time *)
Definition is_valid_date (v : value) : bool :=
  match v with VDate (Some _) => true | _ => false end.

(** "city a string, country a string of length at least 2, coordinates.lon
    and coordinates.lat numbers, temp/feelsLike/windSpeed numbers, humidity
    and pressure integers, condition and description strings, fetchedAt a
    valid date" *)
Definition satisfies_schema (payload : value) : bool :=
  match payload with
  | VObj _ =>
      is_string payload.["city"] &&
      is_string_of_length_at_least 2 payload.["country"] &&
      is_number payload.["coordinates"].["lon"] &&
      is_number payload.["coordinates"].["lat"] &&
      is_number payload.["temp"] &&
      is_number payload.["feelsLike"] &&
      is_integer payload.["humidity"] &&
      is_integer payload.["pressure"] &&
      is_number payload.["windSpeed"] &&
      is_string payload.["condition"] &&
      is_string payload.["description"] &&
      is_valid_date payload.["fetchedAt"]
  | _ => false
  end.

Definition offends (ok : bool) (field : list string) : list (list string) :=
  if ok then [] else [field].

(** "the list of offending fields": the fields that break their
    constraint, in the order of the schema; [coordinates] itself when it is
    not an object; the payload itself (the empty path) when it is not an
    object. *)
Definition offending_fields (payload : value) : list (list string) :=
  match payload with
  | VObj _ =>
      offends (is_string payload.["city"]) ["city"] ++
      offends (is_string_of_length_at_least 2 payload.["country"]) ["country"] ++
      match payload.["coordinates"] with
      | VObj _ =>
          offends (is_number payload.["coordinates"].["lon"]) ["coordinates"; "lon"] ++
          offends (is_number payload.["coordinates"].["lat"]) ["coordinates"; "lat"]
      | _ => [["coordinates"]]
      end ++
      offends (is_number payload.["temp"]) ["temp"] ++
      offends (is_number payload.["feelsLike"]) ["feelsLike"] ++
      offends (is_integer payload.["humidity"]) ["humidity"] ++
      offends (is_integer payload.["pressure"]) ["pressure"] ++
      offends (is_number payload.["windSpeed"]) ["windSpeed"] ++
      offends (is_string payload.["condition"]) ["condition"] ++
      offends (is_string payload.["description"]) ["description"] ++
      offends (is_valid_date payload.["fetchedAt"]) ["fetchedAt"]
  | _ => [[]]
  end.

(** "the normalized-and-typed object": every field of the result is the
    field of the payload, at its declared type. *)
Definition typed_as (payload : value) (d : WeatherData) : Prop :=
  payload.["city"] = VStr (city d) ∧
  payload.["country"] = VStr (country d) ∧
  payload.["coordinates"].["lon"] = VNum (lon (coordinates d)) ∧
  payload.["coordinates"].["lat"] = VNum (lat (coordinates d)) ∧
  payload.["temp"] = VNum (temp d) ∧
  payload.["feelsLike"] = VNum (feelsLike d) ∧
  payload.["humidity"] = VNum (humidity d) ∧
  payload.["pressure"] = VNum (pressure d) ∧
  payload.["windSpeed"] = VNum (windSpeed d) ∧
  payload.["condition"] = VStr (condition d) ∧
  payload.["description"] = VStr (description d) ∧
  payload.["fetchedAt"] = VDate (Some (fetchedAt d)).

End Spec.

(** A schema agrees with a predicate of the specification when it accepts
    exactly the values the predicate describes, returns the value it was
    given, and otherwise reports one issue, at its own path. *)
Definition agrees {A} (s : z.schema A) (ok : value → bool) (inj : A → value) : Prop :=
  ∀ p v,
    z.is_valid (s p v) = ok v ∧
    z.path <$> z.issues_of (s p v) = Spec.offends (ok v) p ∧
    ∀ a, s p v = z.Valid a → v = inj a.


(** ** The provider's response as the specification reads it *)

(** The value found by following a path of keys, [undefined] as soon as a
    step is missing. *)
Fixpoint at_path (v : value) (keys : list string) : value :=
  match keys with
  | [] => v
  | k :: keys' => if nullish v then VUndefined else at_path v.[k] keys'
  end.

(** "Missing optional fields in the source response are defaulted" *)
Definition defaulted (provided fallback result : value) : Prop :=
  (nullish provided = true → result = fallback) ∧
  (nullish provided = false → result = provided).

(** ** The parameters of [GET /] as the specification reads them *)

(** The limit a request asks for: 50 by default, else the integer its
    [limit] parameter denotes. *)
Definition requested_limit (q : Query) : option Z :=
  match q_limit q with
  | None => Some 50
  | Some s => StringToNumber s ≫= to_Z
  end.

(** The city filter of a request, when it gives one. *)
Definition requested_city (q : Query) : option string :=
  match q_city q with
  | Some c => if String.eqb c "" then None else Some c
  | None => None
  end.

(** ** The canonical part of a request body *)

Definition canonical_keys : list string :=
  [ "city"; "country"; "coordinates"; "temp"; "feelsLike"; "humidity";
    "pressure"; "windSpeed"; "condition"; "description"; "fetchedAt" ].

(** The body cut down to the keys of the schema. *)
Definition canonical_fields (req_body : value) : list (string * value) :=
  (λ k, (k, req_body.[k])) <$> canonical_keys.

(** ** Bodies that arrive as JSON *)

(** The values [JSON.parse] produces: no [undefined], no [Date], no
    [NaN]. *)
Fixpoint is_json (v : value) : bool :=
  match v with
  | VNull | VBool _ | VStr _ => true
  | VNum n => negb (isNaN n)
  | VUndefined | VDate _ => false
  | VArr items => forallb is_json items
  | VObj props => forallb (λ kv, is_json kv.2) props
  end.

(** ** Sample data *)

(** [makeFakeWeather] of tests/weather.api.test.js, with the city
    overridden; [-75.1] and [39.9] are the doubles nearest to these
    decimals, and [fetchedAt] is 2025-01-01T00:00:00Z. *)
Definition makeFakeWeather (c : string) : WeatherData :=
  {| city := c;
     country := "US";
     coordinates := {| lon := Finite (-2642346343871283) (-45);
                       lat := Finite 5615425785377587 (-47) |};
     temp := Finite 21 0;
     feelsLike := Finite 20 0;
     humidity := Finite 55 0;
     pressure := Finite 1013 0;
     windSpeed := Finite 4 0;
     condition := "Clouds";
     description := "overcast clouds";
     fetchedAt := 1735689600000 |}.

(** [{ manual: true, ...P }] *)
Definition manual_body (P : WeatherData) : value :=
  VObj (("manual", VBool true) :: props_of P).

(** A manual body with keys the schema does not know, at the top and
    inside [coordinates]. *)
Definition noisy_props : list (string * value) :=
  [ ("note", VStr "from the dashboard");
    ("manual", VBool true);
    ("city", VStr "Testville");
    ("country", VStr "US");
    ("coordinates", VObj [ ("lon", VNum (Finite (-2642346343871283) (-45)));
                           ("alt", VNum (Finite 12 0));
                           ("lat", VNum (Finite 5615425785377587 (-47))) ]);
    ("temp", VNum (Finite 21 0));
    ("feelsLike", VNum (Finite 20 0));
    ("humidity", VNum (Finite 55 0));
    ("pressure", VNum (Finite 1013 0));
    ("windSpeed", VNum (Finite 4 0));
    ("condition", VStr "Clouds");
    ("description", VStr "overcast clouds");
    ("fetchedAt", VDate (Some 1735689600000));
    ("_id", VStr "000000000000000000000007") ].

(** An environment without the provider's API key, and one with it whose
    provider knows London only. *)
Definition env_no_key : Env :=
  {| OPENWEATHER_API_KEY := None;
     DEFAULT_CITY := None;
     Date_now := 1735700000000;
     provider := λ _ _, Rejected (Some 401%nat) |}.

Definition london : value :=
  VObj [ ("name", VStr "London");
         ("sys", VObj [("country", VStr "GB")]);
         ("main", VObj [("temp", VNum (Finite 12 0))]);
         ("weather", VArr [VObj [("main", VStr "Rain")]]);
         ("dt", VNum (Finite 1700000000 0)) ].

Definition env_with_key : Env :=
  {| OPENWEATHER_API_KEY := Some "secret";
     DEFAULT_CITY := Some "Philadelphia";
     Date_now := 1735700000000;
     provider := λ city _, match city with
                           | VStr "London" => Resolved london
                           | _ => Rejected (Some 404%nat)
                           end |}.

Definition empty_world : World := {| collection := ∅; provider_calls := [] |}.

(** The world after three manual creates. *)
Definition three_cities : World :=
  let w1 := (router.post_root env_no_key (manual_body (makeFakeWeather "City1")) empty_world).2 in
  let w2 := (router.post_root env_no_key (manual_body (makeFakeWeather "City2")) w1).2 in
  (router.post_root env_no_key (manual_body (makeFakeWeather "City3")) w2).2.

(** ** Invariant of the collection *)

(** Every stored document has a non-empty [city]. *)
Definition cities_nonempty (w : World) : Prop :=
  map_Forall (λ _ doc, city (data doc) ≠ "") (collection w).

(** ** More sample data *)

(** [makeFakeWeather] after [JSON.stringify] and [JSON.parse], as a client
    sends it with [manual: true]: the date has become a string. *)
Definition json_manual_props : list (string * value) :=
  [ ("manual", VBool true);
    ("city", VStr "Testville");
    ("country", VStr "US");
    ("coordinates", VObj [ ("lon", VNum (Finite (-2642346343871283) (-45)));
                           ("lat", VNum (Finite 5615425785377587 (-47))) ]);
    ("temp", VNum (Finite 21 0));
    ("feelsLike", VNum (Finite 20 0));
    ("humidity", VNum (Finite 55 0));
    ("pressure", VNum (Finite 1013 0));
    ("windSpeed", VNum (Finite 4 0));
    ("condition", VStr "Clouds");
    ("description", VStr "overcast clouds");
    ("fetchedAt", VStr "2025-01-01T00:00:00.000Z") ].

(** ** The provider request of a handler *)

(** [a || process.env.DEFAULT_CITY || "Philadelphia"] *)
Definition city_or_default (env : Env) (a : value) : value :=
  a ||: of_option (DEFAULT_CITY env) ||: VStr "Philadelphia".

(** The record made of a city name and the defaults alone. *)
Definition defaults_for (name : string) (now : Z) : WeatherData :=
  {| city := name;
     country := "NA";
     coordinates := {| lon := zero; lat := zero |};
     temp := zero; feelsLike := zero; humidity := zero; pressure := zero;
     windSpeed := zero;
     condition := "Unknown";
     description := "Unknown";
     fetchedAt := now |}.

(** What a handler that needs the Normalizer asks the provider: nothing
    without an API key, else one request for the city. *)
Definition provider_request (env : Env) (city : value) : list (value * string) :=
  match OPENWEATHER_API_KEY env with
  | Some apiKey => if String.eqb apiKey "" then [] else [(city, apiKey)]
  | None => []
  end.

(** A field of the provider's response is usable when it is missing, and
    then defaulted, or has the type the schema wants. *)
Definition missing_or (ok : value → bool) (v : value) : bool :=
  nullish v || ok v.

(** The responses [POST /fetch] can turn into a record: a non-empty string
    as [name], and every other field missing or of its type. *)
Definition acceptable_response (data : value) : bool :=
  match data.["name"] with
  | VStr name => negb (String.eqb name "")
  | _ => false
  end &&
  missing_or (Spec.is_string_of_length_at_least 2) (at_path data ["sys"; "country"]) &&
  missing_or Spec.is_number (at_path data ["coord"; "lon"]) &&
  missing_or Spec.is_number (at_path data ["coord"; "lat"]) &&
  missing_or Spec.is_number (at_path data ["main"; "temp"]) &&
  missing_or Spec.is_number (at_path data ["main"; "feels_like"]) &&
  missing_or Spec.is_integer (at_path data ["main"; "humidity"]) &&
  missing_or Spec.is_integer (at_path data ["main"; "pressure"]) &&
  missing_or Spec.is_number (at_path data ["wind"; "speed"]) &&
  missing_or Spec.is_string (at_path data ["weather"; "0"; "main"]) &&
  missing_or Spec.is_string (at_path data ["weather"; "0"; "description"]).

(** An environment whose provider answers with a name and nothing else,
    and one whose provider sends a fractional humidity. *)
Definition env_thin : Env :=
  {| OPENWEATHER_API_KEY := Some "secret";
     DEFAULT_CITY := None;
     Date_now := 1735700000000;
     provider := λ _ _, Resolved (VObj [("name", VStr "Nowhere")]) |}.

Definition env_fractional : Env :=
  {| OPENWEATHER_API_KEY := Some "secret";
     DEFAULT_CITY := None;
     Date_now := 1735700000000;
     provider := λ _ _, Resolved (VObj [
       ("name", VStr "Nowhere");
       ("main", VObj [("humidity", VNum (Finite 111 (-1)))]) ]) |}.

(** The candidate [fetchWeather] builds from a response with a body, every
    field written with the path it comes from. *)
Definition normalized (now : Z) (data : value) : value :=
  VObj [
    ("city", data.["name"]);
    ("country", at_path data ["sys"; "country"] ?? VStr "NA");
    ("coordinates", VObj [
      ("lon", at_path data ["coord"; "lon"] ?? VNum zero);
      ("lat", at_path data ["coord"; "lat"] ?? VNum zero) ]);
    ("temp", at_path data ["main"; "temp"] ?? VNum zero);
    ("feelsLike", at_path data ["main"; "feels_like"] ?? VNum zero);
    ("humidity", at_path data ["main"; "humidity"] ?? VNum zero);
    ("pressure", at_path data ["main"; "pressure"] ?? VNum zero);
    ("windSpeed", at_path data ["wind"; "speed"] ?? VNum zero);
    ("condition", at_path data ["weather"; "0"; "main"] ?? VStr "Unknown");
    ("description", at_path data ["weather"; "0"; "description"] ?? VStr "Unknown");
    ("fetchedAt", VDate (Some now)) ].

(** What [fetchWeather] throws for an answer of the provider, if anything:
    the error of axios for a non-2xx answer, a [TypeError] for an answer
    without a body. *)
Definition provider_failure (r : AxiosResult) : option error :=
  match r with
  | Rejected st => Some (AxiosError st)
  | Resolved data => if nullish data then Some TypeError else None
  end.

(** ** Text *)

Module JSText.

(** ToString, as template literals apply it, on the values whose text does
    not depend on number formatting: strings, booleans, [null] and
    [undefined].  [None] means outside this fragment. *)
Definition ToString (v : value) : option string :=
  match v with
  | VStr s => Some s
  | VBool true => Some "true"
  | VBool false => Some "false"
  | VNull => Some "null"
  | VUndefined => Some "undefined"
  | _ => None
  end.

(** White space and line terminators among the code units the model has:
    TAB, LF, VT, FF, CR, SP and NBSP. *)
Definition is_white_space (c : Ascii.ascii) : bool :=
  let n := Ascii.N_of_ascii c in
  ((9 <=? n)%N && (n <=? 13)%N) || (n =? 32)%N || (n =? 160)%N.

Fixpoint trimStart (s : string) : string :=
  match s with
  | String c s' => if is_white_space c then trimStart s' else s
  | EmptyString => EmptyString
  end.

(** [String.prototype.trimEnd]: what is left once the white space at the
    end is gone. *)
Fixpoint trimEnd (s : string) : string :=
  match s with
  | String c s' =>
      match trimEnd s' with
      | EmptyString => if is_white_space c then EmptyString else String c EmptyString
      | rest => String c rest
      end
  | EmptyString => EmptyString
  end.

(** [String.prototype.trim] *)
Definition trim (s : string) : string := trimEnd (trimStart s).

End JSText.

(** ** The page script (public/js/weather.js) *)

(** The script talks to the router through [fetchJSON].  Its requests are
    those of a signed-in session, so they reach the handlers; what it writes
    to the page is left out, as it does not reach the server. *)
Module page.

(** [async function fetchJSON(url, options)]: the body of the response,
    and a throw when the response is not ok.  A handler that fails is
    answered by Express with [http_status], a 4xx or 5xx. *)
Definition fetchJSON (request : M Response) : M json := λ w,
  match request w with
  | (inr res, w') =>
      if (200 <=? status res)%nat && (status res <? 300)%nat
      then (inr (body res), w')
      else (inl (HttpError (status res) ""), w')
  | (inl err, w') => (inl err, w')
  end.

(** The [try] block of [async function refreshWeather(id, city)]: a
    [DELETE] of the record, then a [POST /fetch] for its city, then the
    listing of [loadHistory], whose own failure [loadHistory] catches. *)
Definition refreshWeather (env : Env) (id : string) (city : string) : M json :=
  let* _ := fetchJSON (router.delete_id id) in
  let* record := fetchJSON (router.post_fetch env (Some city)) in
  ret record.

(** [async function handleSearch(event)] for the text of the input: a
    blank text sends nothing; any other is trimmed and sent to
    [POST /fetch] as the [city] of the query. *)
Definition handleSearch (env : Env) (input : string) : M (option json) :=
  let city := JSText.trim input in
  if negb (truthy (VStr city)) then ret None
  else
    let* record := fetchJSON (router.post_fetch env (Some city)) in
    ret (Some record).

End page.

(** ** The directory of signed-in users (application entry) *)

Module auth.

(** What a verify callback passes to [done] as its error: an [Error] it
    made itself, or what its [try] block caught: a [TypeError], the
    rejection of [fetch], or the rejection of reading the body. *)
Inductive failure :=
  | Error (message : string)
  | Caught_TypeError
  | Caught_fetch
  | Caught_body.

(** [passport.serializeUser((user, done) => done(null, user._key))] *)
Definition serializeUser (user : value) : value := user.["_key"].

(** [passport.deserializeUser((key, done) => done(null, users.get(key) || null))],
    over [const users = new Map()]: every key the program sets in it is a
    string. *)
Definition deserializeUser (users : gmap string value) (key : value) : value :=
  match key with
  | VStr k => default VUndefined (users !! k)
  | _ => VUndefined
  end ||: VNull.

(** [items?.map((e) => e.value) || []]: calling [map] on a value that
    has none, or reading [value] of [null] or [undefined], throws. *)
Definition values (items : value) : failure + value :=
  if nullish items then inr (VArr [])
  else match items with
       | VArr l =>
           if forallb (λ e, negb (nullish e)) l
           then inr (VArr ((λ e, e.["value"]) <$> l))
           else inl Caught_TypeError
       | _ => inl Caught_TypeError
       end.

(** The verify callback of [GoogleStrategy], with the [profile] passport
    hands it: what it passes to [done], and the directory after.  [None]
    when the text of [profile.id] is outside the fragment of [ToString]. *)
Definition google_verify (profile : value) (users : gmap string value)
  : option ((failure + value) * gmap string value) :=
  id ← JSText.ToString profile.["id"];
  let key := String.append "google|" id in
  Some match values profile.["emails"] with
       | inl e => (inl e, users)
       | inr emails =>
           match values profile.["photos"] with
           | inl e => (inl e, users)
           | inr photos =>
               let user := VObj [ ("_key", VStr key);
                                  ("provider", VStr "google");
                                  ("id", profile.["id"]);
                                  ("displayName", profile.["displayName"]);
                                  ("emails", emails);
                                  ("photos", photos) ] in
               (inr user, <[key := user]> users)
           end
       end.

(** What [fetch("https://api.linkedin.com/v2/userinfo", ...)] comes to: a
    rejection, or an answer that is ok or not, with its status and its
    body read as text or as JSON ([None] when reading it rejects). *)
Inductive Userinfo :=
  | Unreachable
  | NotOk (status : nat) (text : option string)
  | Ok (data : option value).

(** [data.name || `${data.given_name || ""} ${data.family_name || ""}`.trim()
     || "LinkedIn User"] *)
Definition displayName_of (data : value) : option value :=
  if truthy data.["name"] then Some data.["name"] else
  given ← JSText.ToString (data.["given_name"] ||: VStr "");
  family ← JSText.ToString (data.["family_name"] ||: VStr "");
  Some (VStr (JSText.trim (String.append given (String.append " " family)))
        ||: VStr "LinkedIn User").

(** The verify callback of the LinkedIn [OAuth2Strategy]: what it passes
    to [done], and the directory after.  [None] when a text it needs is
    outside the fragment of [ToString]. *)
Definition linkedin_verify (resp : Userinfo) (users : gmap string value)
  : option ((failure + value) * gmap string value) :=
  match resp with
  | Unreachable => Some (inl Caught_fetch, users)
  | NotOk status None => Some (inl Caught_body, users)
  | NotOk status (Some text) =>
      Some (inl (Error (String.append "LinkedIn userinfo failed: "
                         (String.append (pretty status)
                            (String.append " " text)))), users)
  | Ok None => Some (inl Caught_body, users)
  | Ok (Some data) =>
      if nullish data then Some (inl Caught_TypeError, users) else
      let id := data.["sub"] ||: data.["id"] in
      if negb (truthy id) then
        Some (inl (Error "LinkedIn userinfo missing 'sub'"), users)
      else
        displayName ← displayName_of data;
        let emails := if truthy data.["email"] then [data.["email"]] else [] in
        let photos := if truthy data.["picture"] then [data.["picture"]] else [] in
        id_text ← JSText.ToString id;
        let key := String.append "linkedin|" id_text in
        let user := VObj [ ("_key", VStr key);
                           ("provider", VStr "linkedin");
                           ("id", id);
                           ("displayName", displayName);
                           ("emails", VArr emails);
                           ("photos", VArr photos) ] in
        Some (inr user, <[key := user]> users)
  end.

End auth.

(** ** A stronger invariant of the collection *)

(** Every stored document holds a record that the Validation Layer maps to
    itself, with a non-empty [city]. *)
Definition records_valid (w : World) : Prop :=
  map_Forall
    (λ _ doc, weatherSchema.parse (VObj (props_of (data doc))) = inr (data doc)
              ∧ city (data doc) ≠ "")
    (collection w).
(** * Properties *)

(** ** Validation *)

Section zod_facts.
Context {A B : Type}.

Lemma both_issues (a : z.parsed A) (b : z.parsed B) :
  z.issues_of (z.both a b) = z.issues_of a ++ z.issues_of b.
Proof. destruct a, b; simpl; rewrite ?app_nil_r; reflexivity. Qed.

Lemma both_is_valid (a : z.parsed A) (b : z.parsed B) :
  z.is_valid (z.both a b) = z.is_valid a && z.is_valid b.
Proof. destruct a, b; reflexivity. Qed.

Lemma both_Valid (a : z.parsed A) (b : z.parsed B) x y :
  z.both a b = z.Valid (x, y) ↔ a = z.Valid x ∧ b = z.Valid y.
Proof.
  destruct a, b; simpl; split; try (intros [? ?]); try intros ?;
    simplify_eq; auto.
Qed.

Lemma map_issues (h : A → B) (a : z.parsed A) :
  z.issues_of (z.map h a) = z.issues_of a.
Proof. destruct a; reflexivity. Qed.

Lemma map_is_valid (h : A → B) (a : z.parsed A) :
  z.is_valid (z.map h a) = z.is_valid a.
Proof. destruct a; reflexivity. Qed.

Lemma map_Valid (h : A → B) (a : z.parsed A) y :
  z.map h a = z.Valid y ↔ ∃ x, a = z.Valid x ∧ y = h x.
Proof.
  destruct a; simpl; split.
  - intros ?; simplify_eq; eauto.
  - intros (? & ? & ?); simplify_eq; reflexivity.
  - discriminate.
  - intros (? & ? & ?); discriminate.
Qed.
End zod_facts.

Lemma string_agrees : agrees z.string Spec.is_string VStr.
Proof. intros p v; destruct v; simpl; repeat split; intros; simplify_eq; auto. Qed.

Lemma string_min_agrees n :
  agrees (z.string_min n) (Spec.is_string_of_length_at_least n) VStr.
Proof.
  intros p v; destruct v; simpl; try destruct (_ <=? _)%nat;
    repeat split; intros; simplify_eq; auto.
Qed.

Lemma number_agrees : agrees z.number Spec.is_number VNum.
Proof.
  intros p v; destruct v as [| | |[]| | | |]; simpl;
    repeat split; intros; simplify_eq; auto.
Qed.

Lemma number_int_agrees : agrees z.number_int Spec.is_integer VNum.
Proof.
  intros p v; destruct v as [| | |[|neg|m e]| | | |];
    try (cbn; repeat split; intros; simplify_eq; auto; fail).
  unfold z.number_int, Spec.is_integer; cbn [isNaN].
  destruct (isInteger (Finite m e)); cbn;
    repeat split; intros; simplify_eq; auto.
Qed.

Lemma date_agrees : agrees z.date Spec.is_valid_date (λ t, VDate (Some t)).
Proof.
  intros p v; destruct v as [| | | | |[t|]| |]; simpl;
    repeat split; intros; simplify_eq; auto.
Qed.

Section object_schemas.
Import Spec.


Lemma coordinates_agrees p c :
  z.is_valid (weatherSchema.coordinates_schema p c)
    = is_number c.["lon"] && is_number c.["lat"] ∧
  z.path <$> z.issues_of (weatherSchema.coordinates_schema p c)
    = match c with
      | VObj _ => offends (is_number c.["lon"]) (p ++ ["lon"]) ++
                  offends (is_number c.["lat"]) (p ++ ["lat"])
      | _ => [p]
      end ∧
  ∀ a, weatherSchema.coordinates_schema p c = z.Valid a →
       c.["lon"] = VNum (lon a) ∧ c.["lat"] = VNum (lat a).
Proof.
  destruct c as [| | | | | | |o];
    try (cbn; repeat split; intros; simplify_eq; fail).
  unfold weatherSchema.coordinates_schema, z.object, z.and_then, z.field.
  destruct (number_agrees (p ++ ["lon"]) (VObj o).["lon"]) as (V1 & I1 & R1).
  destruct (number_agrees (p ++ ["lat"]) (VObj o).["lat"]) as (V2 & I2 & R2).
  rewrite map_is_valid, map_issues, both_is_valid, both_issues, fmap_app.
  rewrite V1, V2, I1, I2. split; [reflexivity|split; [reflexivity|]].
  intros a [[x y] [E ->]]%map_Valid. apply both_Valid in E as [E1 E2].
  split; cbn; auto.
Qed.

Lemma schema_agrees payload :
  z.is_valid (weatherSchema.schema [] payload) = satisfies_schema payload ∧
  z.path <$> z.issues_of (weatherSchema.schema [] payload)
    = offending_fields payload ∧
  ∀ d, weatherSchema.schema [] payload = z.Valid d → typed_as payload d.
Proof.
  destruct payload as [| | | | | | |o];
    try (cbn; repeat split; intros; simplify_eq; fail).
  unfold weatherSchema.schema, z.object, z.and_then, z.field.
  cbn [app].
  destruct (string_agrees ["city"] (VObj o).["city"]) as (V1 & I1 & R1).
  destruct (string_min_agrees 2 ["country"] (VObj o).["country"]) as (V2 & I2 & R2).
  destruct (coordinates_agrees ["coordinates"] (VObj o).["coordinates"]) as (V3 & I3 & R3).
  destruct (number_agrees ["temp"] (VObj o).["temp"]) as (V4 & I4 & R4).
  destruct (number_agrees ["feelsLike"] (VObj o).["feelsLike"]) as (V5 & I5 & R5).
  destruct (number_int_agrees ["humidity"] (VObj o).["humidity"]) as (V6 & I6 & R6).
  destruct (number_int_agrees ["pressure"] (VObj o).["pressure"]) as (V7 & I7 & R7).
  destruct (number_agrees ["windSpeed"] (VObj o).["windSpeed"]) as (V8 & I8 & R8).
  destruct (string_agrees ["condition"] (VObj o).["condition"]) as (V9 & I9 & R9).
  destruct (string_agrees ["description"] (VObj o).["description"]) as (V10 & I10 & R10).
  destruct (date_agrees ["fetchedAt"] (VObj o).["fetchedAt"]) as (V11 & I11 & R11).
  split; [|split].
  - rewrite map_is_valid, !both_is_valid.
    rewrite V1, V2, V3, V4, V5, V6, V7, V8, V9, V10, V11.
    unfold satisfies_schema. rewrite !andb_assoc. reflexivity.
  - rewrite map_issues, !both_issues, !fmap_app.
    rewrite I1, I2, I3, I4, I5, I6, I7, I8, I9, I10, I11.
    unfold offending_fields. reflexivity.
  - intros d (t & E & ->)%map_Valid.
    destruct t as (c & k & xy & t & f & h & pr & ws & cond & descr & at_).
    apply both_Valid in E as [E1%R1 E]. apply both_Valid in E as [E2%R2 E].
    apply both_Valid in E as [[E3a E3b]%R3 E]. apply both_Valid in E as [E4%R4 E].
    apply both_Valid in E as [E5%R5 E]. apply both_Valid in E as [E6%R6 E].
    apply both_Valid in E as [E7%R7 E]. apply both_Valid in E as [E8%R8 E].
    apply both_Valid in E as [E9%R9 E]. apply both_Valid in E as [E10%R10 E11%R11].
    repeat split; assumption.
Qed.
End object_schemas.

Lemma offends_app_nil ok field rest :
  Spec.offends ok field ++ rest = [] → ok = true ∧ rest = [].
Proof. destruct ok; [auto | discriminate]. Qed.

Lemma offending_fields_nil payload :
  Spec.offending_fields payload = [] → Spec.satisfies_schema payload = true.
Proof.
  destruct payload as [| | | | | | |o]; try discriminate.
  unfold Spec.offending_fields, Spec.satisfies_schema.
  destruct ((VObj o).["coordinates"]) as [| | | | | | |c]; intros H;
    apply offends_app_nil in H as [-> H];
    apply offends_app_nil in H as [-> H]; try discriminate H.
  rewrite <- app_assoc in H.
  do 8 (apply offends_app_nil in H as [-> H]).
  apply offends_app_nil in H as [-> H].
  rewrite <- (app_nil_r (Spec.offends _ _)) in H.
  apply offends_app_nil in H as [-> _]. reflexivity.
Qed.

Lemma parse_cases (payload : value) :
  match weatherSchema.parse payload with
  | inr d => Spec.satisfies_schema payload = true ∧ Spec.typed_as payload d
  | inl err =>
      Spec.satisfies_schema payload = false ∧
      ∃ issues, err = ZodError issues ∧ issues ≠ [] ∧
                z.path <$> issues = Spec.offending_fields payload
  end.
Proof.
  destruct (schema_agrees payload) as (V & I & R).
  unfold weatherSchema.parse.
  destruct (weatherSchema.schema [] payload) as [d|issues]; cbn in V, I.
  - auto.
  - split; [auto|]. exists issues. split; [reflexivity|]. split; [|assumption].
    intros ->. cbn in I. symmetry in I. apply offending_fields_nil in I.
    congruence.
Qed.

(** C3.  Validation returns the typed object exactly when the payload
    satisfies the schema: on success the payload satisfies it and every
    field of the result is the payload's field; on failure the payload does
    not satisfy it and the [ZodError] carries a non-empty list of issues
    whose paths are exactly the offending fields.  Validation is a function
    of the payload alone: run inside a handler it returns the same result
    and leaves the collection and the provider untouched. *)
Theorem weatherSchema_parse_spec (payload : value) :
  match weatherSchema.parse payload with
  | inr d => Spec.satisfies_schema payload = true ∧ Spec.typed_as payload d
  | inl err =>
      Spec.satisfies_schema payload = false ∧
      ∃ issues, err = ZodError issues ∧ issues ≠ [] ∧
                z.path <$> issues = Spec.offending_fields payload
  end ∧
  ∀ w, lift (weatherSchema.parse payload) w = (weatherSchema.parse payload, w).
Proof. split; [apply parse_cases | reflexivity]. Qed.

(** ** From validation to the store *)

Lemma parse_inr payload d :
  weatherSchema.parse payload = inr d →
  Spec.satisfies_schema payload = true ∧ Spec.typed_as payload d.
Proof.
  intros E. pose proof (parse_cases payload) as H.
  rewrite E in H. exact H.
Qed.

Lemma parse_satisfies payload :
  Spec.satisfies_schema payload = true → ∃ d, weatherSchema.parse payload = inr d.
Proof.
  intros S. pose proof (parse_cases payload) as H.
  destruct (weatherSchema.parse payload) as [err|d]; [|eauto].
  destruct H as [H _]. congruence.
Qed.

Lemma satisfies_props_of P :
  Spec.satisfies_schema (VObj (props_of P)) =
    (2 <=? String.length (country P))%nat &&
    negb (isNaN (lon (coordinates P))) && negb (isNaN (lat (coordinates P))) &&
    negb (isNaN (temp P)) && negb (isNaN (feelsLike P)) &&
    isInteger (humidity P) && isInteger (pressure P) &&
    negb (isNaN (windSpeed P)).
Proof. cbn. rewrite !andb_true_r. reflexivity. Qed.

(** A record written out as an object literal parses to itself. *)
Lemma parse_props_of P :
  Spec.satisfies_schema (VObj (props_of P)) = true →
  weatherSchema.parse (VObj (props_of P)) = inr P.
Proof.
  intros [d E]%parse_satisfies. rewrite E. f_equal.
  apply parse_inr in E as [_ T].
  destruct T as (T1 & T2 & T3 & T4 & T5 & T6 & T7 & T8 & T9 & T10 & T11 & T12).
  cbn in *. destruct d as [? ? [] ? ? ? ? ? ? ? ?], P as [? ? [] ? ? ? ? ? ? ? ?].
  cbn in *. congruence.
Qed.

(** What zod lets through, the store's schema accepts, except for an empty
    city: the only check of [WeatherSchema] that [weatherSchema] does not
    imply is [required] on [city]. *)
Lemma parsed_invalid_paths payload d :
  weatherSchema.parse payload = inr d →
  Weather.invalid_paths d = Weather.check (Weather.checkRequired (city d)) "city".
Proof.
  intros [S T]%parse_inr.
  destruct payload as [| | | | | | |o]; try discriminate.
  destruct T as (T1 & T2 & T3 & T4 & T5 & T6 & T7 & T8 & T9 & T10 & T11 & T12).
  unfold Spec.satisfies_schema in S.
  rewrite T1, T2, T3, T4, T5, T6, T7, T8, T9, T10, T11, T12 in S.
  cbn in S.
  repeat (apply andb_prop in S as [S ?]).
  unfold Weather.invalid_paths, Weather.castNumber, Weather.checkRequired.
  destruct (isNaN (lon _)), (isNaN (lat _)), (isNaN (temp d)),
    (isNaN (feelsLike d)), (isNaN (windSpeed d)); try discriminate.
  assert (isNaN (humidity d) = false) as -> by (destruct (humidity d); auto; discriminate).
  assert (isNaN (pressure d) = false) as -> by (destruct (pressure d); auto; discriminate).
  assert (String.eqb (country d) "" = false) as ->.
  { destruct (country d); [discriminate | reflexivity]. }
  cbn. rewrite app_nil_r. reflexivity.
Qed.

Lemma validate_parsed payload d w :
  weatherSchema.parse payload = inr d →
  Weather.validate d w =
    if Weather.checkRequired (city d) then (inr tt, w)
    else (inl (ValidationError ["city"]), w).
Proof.
  intros E%parsed_invalid_paths. unfold Weather.validate. rewrite E.
  destruct (Weather.checkRequired _); reflexivity.
Qed.

Lemma checkRequired_nonempty s : s ≠ "" → Weather.checkRequired s = true.
Proof. unfold Weather.checkRequired. destruct s; [congruence | reflexivity]. Qed.

Lemma checkRequired_true s : Weather.checkRequired s = true → s ≠ "".
Proof. destruct s; [discriminate | congruence]. Qed.

(** ** Creating and replacing records *)



Lemma fresh_not_stored (w : World) :
  collection w !! fresh (dom (collection w)) = None.
Proof. apply not_elem_of_dom, is_fresh. Qed.




Lemma castId_Some id oid w :
  castObjectId id = Some oid → Weather.castId id w = (inr oid, w).
Proof. unfold Weather.castId. intros ->. reflexivity. Qed.

Lemma castId_None id w :
  castObjectId id = None → Weather.castId id w = (inl (CastError "_id"), w).
Proof. unfold Weather.castId. intros ->. reflexivity. Qed.




(** ** What reaches the collection *)

Lemma invalid_paths_nil_city d : Weather.invalid_paths d = [] → city d ≠ "".
Proof.
  unfold Weather.invalid_paths, Weather.check.
  destruct (Weather.checkRequired (city d)) eqn:E; [|discriminate].
  intros _. apply checkRequired_true, E.
Qed.

Lemma create_keeps_cities env d w :
  cities_nonempty w → cities_nonempty (Weather.create env d w).2.
Proof.
  intros I. unfold Weather.create, bind, Weather.validate.
  destruct (Weather.invalid_paths d) eqn:E; [|exact I].
  cbn. apply map_Forall_insert_2; [|exact I].
  apply invalid_paths_nil_city, E.
Qed.

Lemma update_keeps_cities env id d w :
  cities_nonempty w → cities_nonempty (Weather.findByIdAndUpdate env id d w).2.
Proof.
  intros I. unfold Weather.findByIdAndUpdate, bind, Weather.castId, Weather.validate.
  destruct (castObjectId id); [|exact I]. cbn.
  destruct (Weather.invalid_paths d) eqn:E; [|exact I]. cbn.
  destruct (collection w !! _); [|exact I].
  cbn. apply map_Forall_insert_2; [|exact I].
  apply invalid_paths_nil_city, E.
Qed.

Lemma delete_keeps_cities id w :
  cities_nonempty w → cities_nonempty (Weather.findByIdAndDelete id w).2.
Proof.
  intros I. unfold Weather.findByIdAndDelete, bind, Weather.castId.
  destruct (castObjectId id); [|exact I]. cbn.
  destruct (collection w !! _); [|exact I].
  cbn. apply map_Forall_delete, I.
Qed.

Lemma fetchWeather_collection env city apiKey w :
  collection (fetchWeather env city apiKey w).2 = collection w.
Proof.
  unfold fetchWeather, bind, axios.get.
  destruct (provider env city apiKey) as [data|]; [|reflexivity].
  destruct (nullish data); reflexivity.
Qed.

Lemma fetch_candidate_collection env city w :
  collection (router.fetch_candidate env city w).2 = collection w.
Proof.
  unfold router.fetch_candidate.
  destruct (OPENWEATHER_API_KEY env) as [k|]; [|reflexivity].
  destruct (truthy (VStr k)); [apply fetchWeather_collection | reflexivity].
Qed.

Lemma cities_nonempty_collection w w' :
  collection w' = collection w → cities_nonempty w → cities_nonempty w'.
Proof. unfold cities_nonempty. intros ->. auto. Qed.

Lemma parse_create_keeps_cities env candidate w :
  cities_nonempty w →
  cities_nonempty
    ((let* parsed := lift (weatherSchema.parse candidate) in
      let* created := Weather.create env parsed in
      ret {| status := 201%nat; body := JDoc created |}) w).2.
Proof.
  intros I. unfold bind at 1, lift.
  destruct (weatherSchema.parse candidate) as [e|d]; [exact I|].
  pose proof (create_keeps_cities env d w I) as H.
  unfold bind, ret. destruct (Weather.create env d w) as [[e|doc] w']; exact H.
Qed.

Lemma post_root_keeps_cities env req_body w :
  cities_nonempty w → cities_nonempty (router.post_root env req_body w).2.
Proof.
  intros I. unfold router.post_root, router.destructure.
  destruct (nullish req_body); [exact I|].
  unfold bind at 1, ret at 1. unfold bind at 1.
  destruct (truthy _).
  - unfold ret at 1. apply (parse_create_keeps_cities env _ w I).
  - pose proof (fetch_candidate_collection env
      ((VObj (filter (λ kv : string * value, kv.1 ≠ "manual") (own_props req_body))).["city"]
         ||: of_option (DEFAULT_CITY env) ||: VStr "Philadelphia") w) as C.
    destruct (router.fetch_candidate _ _ w) as [[e|candidate] w']; cbn in C.
    + eapply cities_nonempty_collection; eauto.
    + apply (parse_create_keeps_cities env _ w').
      eapply cities_nonempty_collection; eauto.
Qed.

Lemma post_fetch_keeps_cities env query_city w :
  cities_nonempty w → cities_nonempty (router.post_fetch env query_city w).2.
Proof.
  intros I. unfold router.post_fetch. unfold bind at 1.
  pose proof (fetch_candidate_collection env
    (of_option query_city ||: of_option (DEFAULT_CITY env) ||: VStr "Philadelphia") w) as C.
  destruct (router.fetch_candidate _ _ w) as [[e|candidate] w']; cbn in C.
  - eapply cities_nonempty_collection; eauto.
  - apply (parse_create_keeps_cities env _ w').
    eapply cities_nonempty_collection; eauto.
Qed.

Lemma put_id_keeps_cities env id req_body w :
  cities_nonempty w → cities_nonempty (router.put_id env id req_body w).2.
Proof.
  intros I. unfold router.put_id. unfold bind at 1, lift.
  destruct (weatherSchema.parse req_body) as [e|d]; [exact I|].
  pose proof (update_keeps_cities env id d w I) as H. unfold bind.
  destruct (Weather.findByIdAndUpdate env id d w) as [[e|[doc|]] w']; exact H.
Qed.

Lemma delete_id_keeps_cities id w :
  cities_nonempty w → cities_nonempty (router.delete_id id w).2.
Proof.
  intros I. pose proof (delete_keeps_cities id w I) as H.
  unfold router.delete_id, bind.
  destruct (Weather.findByIdAndDelete id w) as [[e|[doc|]] w']; exact H.
Qed.

(** C9 (amended).  A record that passes validation has a string in its
    [city] field, possibly the empty string; the collection nevertheless
    only ever holds records with a non-empty [city], because the store's
    [required] check refuses the empty string: every handler keeps that
    invariant. *)
Theorem validated_city_is_a_string_persisted_city_nonempty
    (env : Env) (w : World) (payload : value) (d : WeatherData) :
  weatherSchema.parse payload = inr d →
  cities_nonempty w →
  payload.["city"] = VStr (city d) ∧
  (∀ req_body, cities_nonempty (router.post_root env req_body w).2) ∧
  (∀ query_city, cities_nonempty (router.post_fetch env query_city w).2) ∧
  (∀ id req_body, cities_nonempty (router.put_id env id req_body w).2) ∧
  (∀ id, cities_nonempty (router.delete_id id w).2).
Proof.
  intros [_ T]%parse_inr I. split; [apply T|]. repeat split; intros.
  - apply post_root_keeps_cities, I.
  - apply post_fetch_keeps_cities, I.
  - apply put_id_keeps_cities, I.
  - apply delete_id_keeps_cities, I.
Qed.

Lemma three_cities_nonempty : cities_nonempty three_cities.
Proof.
  unfold three_cities. cbv zeta.
  do 3 apply post_root_keeps_cities. apply map_Forall_empty.
Defined.

Lemma validated_city_is_a_string_persisted_city_nonempty_witness :
  let payload := VObj (props_of (makeFakeWeather "Testville")) in
  weatherSchema.parse payload = inr (makeFakeWeather "Testville") ∧
  cities_nonempty three_cities ∧
  payload.["city"] = VStr "Testville" ∧
  cities_nonempty
    (router.post_root env_no_key (manual_body (makeFakeWeather "")) three_cities).2.
Proof.
  split; [reflexivity|]. split; [exact three_cities_nonempty|].
  destruct (validated_city_is_a_string_persisted_city_nonempty env_no_key
    three_cities (VObj (props_of (makeFakeWeather "Testville")))
    (makeFakeWeather "Testville") eq_refl three_cities_nonempty)
    as (Hcity & Hpost & _).
  split; [exact Hcity | apply Hpost].
Defined.

Lemma empty_city_passes_validation :
  let payload := VObj (props_of (makeFakeWeather "")) in
  weatherSchema.parse payload = inr (makeFakeWeather "") ∧
  city (makeFakeWeather "") = "".
Proof. split; reflexivity. Qed.

(** ** Reading and deleting by id *)

Lemma get_id_run id oid w :
  castObjectId id = Some oid →
  router.get_id id w =
    match collection w !! oid with
    | Some doc => (inr {| status := 200; body := JDoc {| _id := oid; document := doc |} |}, w)
    | None => (inl (createError 404 "Weather record not found"), w)
    end.
Proof.
  intros C. unfold router.get_id, Weather.findById, bind.
  rewrite (castId_Some _ _ _ C). destruct (collection w !! oid); reflexivity.
Qed.

Lemma delete_id_run id oid w :
  castObjectId id = Some oid →
  router.delete_id id w =
    match collection w !! oid with
    | Some doc => (inr {| status := 200; body := JDeleted oid |},
                   with_collection (delete oid (collection w)) w)
    | None => (inl (createError 404 "Weather record not found"), w)
    end.
Proof.
  intros C. unfold router.delete_id, Weather.findByIdAndDelete, bind.
  rewrite (castId_Some _ _ _ C). destruct (collection w !! oid); reflexivity.
Qed.

(** C6.  For every well-formed id, [DELETE /:id] removes the one document
    with that id and answers 200 with [{ deleted: true, id }]: the id is
    gone, every other id holds what it held, the collection is one smaller,
    and [GET /:id] for the same id then answers 404; when no document has
    that id the answer is 404 and nothing changes. *)
Theorem delete_removes_exactly_one (w : World) (id : string) (oid : ObjectId) :
  castObjectId id = Some oid →
  match collection w !! oid with
  | Some doc =>
      ∃ w',
        router.delete_id id w = (inr {| status := 200; body := JDeleted oid |}, w') ∧
        collection w' !! oid = None ∧
        (∀ k, k ≠ oid → collection w' !! k = collection w !! k) ∧
        S (size (collection w')) = size (collection w) ∧
        provider_calls w' = provider_calls w ∧
        http_status (router.get_id id w').1 = 404%nat
  | None =>
      router.delete_id id w = (inl (createError 404 "Weather record not found"), w) ∧
      http_status (router.delete_id id w).1 = 404%nat
  end.
Proof.
  intros C. rewrite (delete_id_run _ _ _ C).
  destruct (collection w !! oid) as [doc|] eqn:L; [|split; reflexivity].
  eexists. split; [reflexivity|]. cbn.
  split; [apply lookup_delete_eq|].
  split; [intros k N; apply lookup_delete_ne; congruence|].
  split.
  { rewrite <- (insert_delete_id (collection w) oid doc) at 2 by exact L.
    rewrite map_size_insert_None by apply lookup_delete_eq. reflexivity. }
  split; [reflexivity|].
  rewrite (get_id_run _ _ _ C). cbn. rewrite lookup_delete_eq. reflexivity.
Qed.

Lemma delete_removes_exactly_one_witness :
  castObjectId "000000000000000000000001" = Some 1%N ∧
  ∃ w',
    router.delete_id "000000000000000000000001" three_cities
      = (inr {| status := 200; body := JDeleted 1%N |}, w') ∧
    collection w' !! 1%N = None ∧
    (∀ k, k ≠ 1%N → collection w' !! k = collection three_cities !! k) ∧
    S (size (collection w')) = size (collection three_cities) ∧
    provider_calls w' = provider_calls three_cities ∧
    http_status (router.get_id "000000000000000000000001" w').1 = 404%nat.
Proof.
  split; [reflexivity|].
  pose proof (delete_removes_exactly_one three_cities
    "000000000000000000000001" 1%N eq_refl) as H.
  change (collection three_cities !! 1%N) with
    (Some {| data := makeFakeWeather "City2"; createdAt := Date_now env_no_key;
             updatedAt := Date_now env_no_key; __v := 0 |}) in H.
  exact H.
Defined.

(** ** Malformed ids *)

(** C7.  For every id that does not cast to an ObjectId, [GET /:id] and
    [DELETE /:id] hand a [CastError] to Express, which answers 500: a 5xx,
    never a 2xx, the world unchanged; the error is not the 404 of a missing
    record, nor is its status. *)
Theorem malformed_id_is_an_error (w : World) (id : string) :
  castObjectId id = None →
  router.get_id id w = (inl (CastError "_id"), w) ∧
  router.delete_id id w = (inl (CastError "_id"), w) ∧
  http_status (router.get_id id w).1 = 500%nat ∧
  http_status (router.delete_id id w).1 = 500%nat ∧
  CastError "_id" ≠ createError 404 "Weather record not found" ∧
  http_status (inl (CastError "_id"))
    ≠ http_status (inl (createError 404 "Weather record not found")).
Proof.
  intros C.
  assert (router.get_id id w = (inl (CastError "_id"), w)) as G.
  { unfold router.get_id, Weather.findById, bind.
    rewrite (castId_None _ _ C). reflexivity. }
  assert (router.delete_id id w = (inl (CastError "_id"), w)) as D.
  { unfold router.delete_id, Weather.findByIdAndDelete, bind.
    rewrite (castId_None _ _ C). reflexivity. }
  rewrite G, D. repeat split; try reflexivity; discriminate.
Qed.

Lemma malformed_id_is_an_error_witness :
  castObjectId "not-a-valid-id" = None ∧
  router.get_id "not-a-valid-id" three_cities = (inl (CastError "_id"), three_cities) ∧
  router.delete_id "not-a-valid-id" three_cities = (inl (CastError "_id"), three_cities) ∧
  http_status (router.get_id "not-a-valid-id" three_cities).1 = 500%nat ∧
  http_status (router.delete_id "not-a-valid-id" three_cities).1 = 500%nat.
Proof.
  split; [reflexivity|].
  destruct (malformed_id_is_an_error three_cities "not-a-valid-id" eq_refl)
    as (G & D & SG & SD & _).
  auto.
Defined.

(** ** Missing API key *)

Lemma fetch_candidate_no_key env city w :
  OPENWEATHER_API_KEY env = None →
  router.fetch_candidate env city w
    = (inl (createError 500 "Missing OPENWEATHER_API_KEY"), w).
Proof. unfold router.fetch_candidate. intros ->. reflexivity. Qed.

(** C8.  When [OPENWEATHER_API_KEY] is absent, [POST /] on a body whose
    [manual] is not truthy and [POST /fetch] fail with status 500 at the
    time of the request; no request goes to the provider and nothing is
    persisted: the world is as before. *)
Theorem missing_api_key_is_500 (env : Env) (w : World) :
  OPENWEATHER_API_KEY env = None →
  (∀ req_body,
     truthy req_body.["manual"] = false →
     ∃ err, router.post_root env req_body w = (inl err, w) ∧
            http_status (inl err) = 500%nat) ∧
  (∀ query_city,
     router.post_fetch env query_city w
       = (inl (createError 500 "Missing OPENWEATHER_API_KEY"), w) ∧
     http_status (router.post_fetch env query_city w).1 = 500%nat).
Proof.
  intros K. split.
  - intros req_body F. unfold router.post_root, router.destructure.
    destruct (nullish req_body); [eexists; split; reflexivity|].
    unfold bind at 1, ret at 1. unfold bind at 1. rewrite F.
    rewrite (fetch_candidate_no_key _ _ _ K). eexists; split; reflexivity.
  - intros query_city.
    assert (router.post_fetch env query_city w
      = (inl (createError 500 "Missing OPENWEATHER_API_KEY"), w)) as ->.
    { unfold router.post_fetch. unfold bind at 1.
      rewrite (fetch_candidate_no_key _ _ _ K). reflexivity. }
    split; reflexivity.
Qed.

Lemma missing_api_key_is_500_witness :
  OPENWEATHER_API_KEY env_no_key = None ∧
  truthy (VObj [("city", VStr "London")]).["manual"] = false ∧
  (∃ err, router.post_root env_no_key (VObj [("city", VStr "London")]) three_cities
            = (inl err, three_cities) ∧
          http_status (inl err) = 500%nat) ∧
  router.post_fetch env_no_key (Some "London") three_cities
    = (inl (createError 500 "Missing OPENWEATHER_API_KEY"), three_cities).
Proof.
  split; [reflexivity|]. split; [reflexivity|].
  destruct (missing_api_key_is_500 env_no_key three_cities eq_refl) as [P F].
  split; [apply P; reflexivity | apply F].
Defined.

(** ** The Normalizer *)

Lemma coalesce_defaulted provided fallback :
  defaulted provided fallback (provided ?? fallback).
Proof. unfold defaulted, coalesce. destruct (nullish provided); split; congruence. Qed.

Lemma opt_get_at_path data k1 k2 :
  nullish data = false → data.[k1]?.[k2] = at_path data [k1; k2].
Proof. intros N. cbn. rewrite N. reflexivity. Qed.

Lemma opt_get_at_path3 data k1 k2 k3 :
  nullish data = false → data.[k1]?.[k2]?.[k3] = at_path data [k1; k2; k3].
Proof.
  intros N. cbn. rewrite N. unfold opt_get.
  destruct (nullish data.[k1]); reflexivity.
Qed.

(** C2.  For every provider response with a body, the Normalizer's
    output defaults each missing field: [country] to ["NA"], the numeric
    fields to [0], [condition] and [description] to ["Unknown"], the
    coordinates to [{ lon: 0, lat: 0 }]; a field that is present is passed
    on; and [fetchedAt] is the time of the call whatever the response
    holds. *)
Theorem fetchWeather_defaults (env : Env) (w : World) (city : value)
    (apiKey : string) (data : value) :
  provider env city apiKey = Resolved data →
  nullish data = false →
  ∃ candidate,
    fetchWeather env city apiKey w =
      (inr candidate,
       {| collection := collection w;
          provider_calls := provider_calls w ++ [(city, apiKey)] |}) ∧
    candidate.["city"] = data.["name"] ∧
    defaulted (at_path data ["sys"; "country"]) (VStr "NA") candidate.["country"] ∧
    defaulted (at_path data ["coord"; "lon"]) (VNum zero) candidate.["coordinates"].["lon"] ∧
    defaulted (at_path data ["coord"; "lat"]) (VNum zero) candidate.["coordinates"].["lat"] ∧
    (nullish data.["coord"] = true →
       candidate.["coordinates"] = VObj [("lon", VNum zero); ("lat", VNum zero)]) ∧
    defaulted (at_path data ["main"; "temp"]) (VNum zero) candidate.["temp"] ∧
    defaulted (at_path data ["main"; "feels_like"]) (VNum zero) candidate.["feelsLike"] ∧
    defaulted (at_path data ["main"; "humidity"]) (VNum zero) candidate.["humidity"] ∧
    defaulted (at_path data ["main"; "pressure"]) (VNum zero) candidate.["pressure"] ∧
    defaulted (at_path data ["wind"; "speed"]) (VNum zero) candidate.["windSpeed"] ∧
    defaulted (at_path data ["weather"; "0"; "main"]) (VStr "Unknown") candidate.["condition"] ∧
    defaulted (at_path data ["weather"; "0"; "description"]) (VStr "Unknown")
      candidate.["description"] ∧
    candidate.["fetchedAt"] = VDate (Some (Date_now env)).
Proof.
  intros R N. unfold fetchWeather, bind, axios.get. rewrite R, N.
  eexists. split; [reflexivity|].
  change (λ a b, a.[b]) with get.
  cbn [get assoc String.eqb Ascii.eqb Bool.eqb default].
  rewrite <- !(opt_get_at_path3 data) by exact N.
  rewrite <- !(opt_get_at_path data) by exact N.
  repeat split; try apply coalesce_defaulted.
  intros C. unfold opt_get. rewrite C. reflexivity.
Qed.

Lemma fetchWeather_defaults_witness :
  provider env_with_key (VStr "London") "secret" = Resolved london ∧
  nullish london = false ∧
  ∃ candidate,
    (fetchWeather env_with_key (VStr "London") "secret" empty_world).1 = inr candidate ∧
    candidate.["country"] = VStr "GB" ∧
    candidate.["coordinates"] = VObj [("lon", VNum zero); ("lat", VNum zero)] ∧
    candidate.["humidity"] = VNum zero ∧
    candidate.["condition"] = VStr "Rain" ∧
    candidate.["description"] = VStr "Unknown" ∧
    candidate.["fetchedAt"] = VDate (Some (Date_now env_with_key)).
Proof.
  split; [reflexivity|]. split; [reflexivity|].
  destruct (fetchWeather_defaults env_with_key empty_world (VStr "London")
    "secret" london eq_refl eq_refl)
    as (candidate & E & _ & Hcountry & _ & _ & Hcoord & _ & _ & Hhum & _ & _
        & Hcond & Hdescr & Hat).
  exists candidate. rewrite E.
  split; [reflexivity|].
  split; [apply Hcountry; reflexivity|].
  split; [apply Hcoord; reflexivity|].
  split; [apply Hhum; reflexivity|].
  split; [apply Hcond; reflexivity|].
  split; [apply Hdescr; reflexivity|].
  exact Hat.
Defined.

(** A provider answer without a body makes [data.name] throw, and a
    rejected request propagates; neither produces a candidate. *)
Lemma fetchWeather_failures env w city apiKey :
  match provider env city apiKey with
  | Resolved data =>
      nullish data = true → (fetchWeather env city apiKey w).1 = inl TypeError
  | Rejected st => (fetchWeather env city apiKey w).1 = inl (AxiosError st)
  end.
Proof.
  unfold fetchWeather, bind, axios.get.
  destruct (provider env city apiKey); [intros ->|]; reflexivity.
Qed.

(** ** Listing *)

Global Instance newest_first_trans : Transitive Weather.newest_first.
Proof. unfold Weather.newest_first. intros a b c Hab Hbc. lia. Qed.

Global Instance newest_first_total : Total Weather.newest_first.
Proof. unfold Weather.newest_first. intros a b. lia. Qed.

Lemma StronglySorted_take {A} (R : relation A) n (l : list A) :
  StronglySorted R l → StronglySorted R (take n l).
Proof.
  intros H. rewrite <- (take_drop n l) in H.
  apply StronglySorted_app_1_l in H. exact H.
Qed.

Lemma elem_of_all d w :
  d ∈ Weather.all w ↔ collection w !! _id d = Some (document d).
Proof.
  unfold Weather.all. rewrite list_elem_of_fmap. split.
  - intros ([k doc] & -> & H). cbn. apply elem_of_map_to_list, H.
  - intros H. exists (_id d, document d). split; [destruct d; reflexivity|].
    apply elem_of_map_to_list, H.
Qed.

Lemma length_all w : length (Weather.all w) = size (collection w).
Proof. unfold Weather.all. rewrite length_fmap. apply length_map_to_list. Qed.

Lemma find_all w : Weather.find None w = Weather.all w.
Proof.
  unfold Weather.find. induction (Weather.all w) as [|d l IH]; [reflexivity|].
  rewrite filter_cons_True by exact I. rewrite IH. reflexivity.
Qed.

Lemma query_of_city (q : Query) :
  (if truthy (of_option (q_city q)) then q_city q else None) = requested_city q.
Proof.
  unfold requested_city. destruct (q_city q) as [c|]; [|reflexivity].
  cbn. destruct (String.eqb c ""); reflexivity.
Qed.

Lemma Number_of_limit (q : Query) n :
  requested_limit q = Some n →
  ∃ num, Number (match q_limit q with Some s => VStr s | None => VNum (Finite 50 0) end)
           = Some num ∧ to_Z num = Some n.
Proof.
  unfold requested_limit. destruct (q_limit q) as [s|].
  - cbn. destruct (StringToNumber s) as [num|]; [|discriminate]. eauto.
  - intros [= <-]. eexists; split; reflexivity.
Qed.

(** C4 (amended).  [GET /] answers 200 with a list ordered by [fetchedAt]
    descending, made of stored records that match the city filter when a
    city is given; for a positive integer limit (50 when none is given) the
    list holds the smaller of the limit and the number of matching records,
    so never more than the limit, and exactly 2 for [limit=2] over three or
    more stored records; for [limit=0] it holds every matching record. *)
Theorem get_root_lists (w : World) (q : Query) (n : Z) :
  requested_limit q = Some n →
  0 ≤ n →
  ∃ docs,
    router.get_root q w = Some (inr {| status := 200; body := JDocs docs |}, w) ∧
    StronglySorted Weather.newest_first docs ∧
    (∀ d, d ∈ docs →
          collection w !! _id d = Some (document d) ∧
          ∀ c, requested_city q = Some c → city (data (document d)) = c) ∧
    (0 < n → length docs = Nat.min (Z.to_nat n)
                             (length (Weather.find (requested_city q) w))) ∧
    (n = 0 → length docs = length (Weather.find (requested_city q) w)) ∧
    (q_limit q = None → n = 50) ∧
    (requested_city q = None → n = 2 → (3 ≤ size (collection w))%nat →
     length docs = 2%nat).
Proof.
  intros L N. destruct (Number_of_limit q n L) as (num & EN & EZ).
  unfold router.get_root. rewrite EN, query_of_city. cbn [mbind option_bind].
  unfold Weather.find_sort_limit, Weather.limit. rewrite EZ.
  set (sorted := merge_sort Weather.newest_first (Weather.find (requested_city q) w)).
  assert (StronglySorted Weather.newest_first sorted) as SS
    by (apply StronglySorted_merge_sort; apply _).
  assert (sorted ≡ₚ Weather.find (requested_city q) w) as PP
    by (apply merge_sort_Permutation).
  assert (∀ d, d ∈ sorted →
            collection w !! _id d = Some (document d) ∧
            ∀ c, requested_city q = Some c → city (data (document d)) = c) as MM.
  { intros d. rewrite PP. unfold Weather.find. rewrite list_elem_of_filter.
    intros [Hm Hin]. split; [apply elem_of_all, Hin|].
    intros c Ec. rewrite Ec in Hm. cbn in Hm.
    apply Is_true_true, String.eqb_eq in Hm. exact Hm. }
  assert (q_limit q = None → n = 50) as DD.
  { intros E. unfold requested_limit in L. rewrite E in L. congruence. }
  destruct (n =? 0) eqn:Z0.
  - apply Z.eqb_eq in Z0. exists sorted. cbn.
    split; [reflexivity|]. split; [exact SS|]. split; [exact MM|].
    split; [lia|]. split; [intros _; rewrite PP; reflexivity|].
    split; [exact DD|]. lia.
  - apply Z.eqb_neq in Z0. assert ((0 <? n) = true) as -> by lia.
    exists (take (Z.to_nat n) sorted). cbn.
    split; [reflexivity|]. split; [apply StronglySorted_take, SS|].
    split; [intros d Hd; apply MM; eapply subseteq_take, Hd|].
    split; [intros _; rewrite length_take, PP; reflexivity|].
    split; [lia|]. split; [exact DD|].
    intros C -> S3. rewrite length_take, PP, C, find_all, length_all.
    change (Z.to_nat 2) with 2%nat. lia.
Qed.

Lemma get_root_lists_witness :
  let q := {| q_city := None; q_limit := Some "2" |} in
  requested_limit q = Some 2 ∧
  0 ≤ 2 ∧
  ∃ docs,
    router.get_root q three_cities
      = Some (inr {| status := 200; body := JDocs docs |}, three_cities) ∧
    StronglySorted Weather.newest_first docs ∧
    length docs = 2%nat.
Proof.
  split; [reflexivity|]. split; [lia|].
  destruct (get_root_lists three_cities {| q_city := None; q_limit := Some "2" |} 2
    eq_refl ltac:(lia)) as (docs & E & SS & _ & _ & _ & _ & L2).
  exists docs. split; [exact E|]. split; [exact SS|].
  apply L2; [reflexivity | reflexivity | vm_compute; lia].
Defined.

Lemma limit_zero_returns_everything :
  let q := {| q_city := None; q_limit := Some "0" |} in
  requested_limit q = Some 0 ∧
  ∃ docs,
    router.get_root q three_cities
      = Some (inr {| status := 200; body := JDocs docs |}, three_cities) ∧
    length docs = 3%nat ∧
    ¬ (Z.of_nat (length docs) ≤ 0).
Proof.
  split; [reflexivity|]. eexists. split; [vm_compute; reflexivity|].
  split; [reflexivity|]. cbn. lia.
Qed.

(** ** Keys outside the schema *)

Lemma get_without_manual o k :
  k ≠ "manual" →
  (VObj (filter (λ kv : string * value, kv.1 ≠ "manual") o)).[k] = (VObj o).[k].
Proof.
  intros N. cbn. f_equal. induction o as [|[k' v] o IH]; [reflexivity|].
  destruct (decide (k' = "manual")) as [->|N'].
  - rewrite filter_cons_False by (cbn; tauto). cbn.
    destruct (String.eqb_spec k "manual"); [contradiction | exact IH].
  - rewrite filter_cons_True by (cbn; exact N'). cbn. rewrite IH. reflexivity.
Qed.

Lemma parse_ext a b :
  (∀ k, k ∈ canonical_keys → (VObj a).[k] = (VObj b).[k]) →
  weatherSchema.parse (VObj a) = weatherSchema.parse (VObj b).
Proof.
  intros H. unfold weatherSchema.parse, weatherSchema.schema, z.object,
    z.and_then, z.field.
  rewrite !H by (unfold canonical_keys; set_solver). reflexivity.
Qed.

Lemma get_canonical_fields req_body k :
  k ∈ canonical_keys → (VObj (canonical_fields req_body)).[k] = req_body.[k].
Proof.
  unfold canonical_keys. rewrite !elem_of_cons, elem_of_nil.
  intros H. decompose [or] H; subst; try reflexivity. contradiction.
Qed.

Lemma canonical_ne_manual k : k ∈ canonical_keys → k ≠ "manual".
Proof.
  unfold canonical_keys. rewrite !elem_of_cons, elem_of_nil.
  intros H. decompose [or] H; subst; try discriminate. contradiction.
Qed.

Lemma parse_rest_canonical o :
  weatherSchema.parse (VObj (filter (λ kv : string * value, kv.1 ≠ "manual") o))
  = weatherSchema.parse (VObj (canonical_fields (VObj o))).
Proof.
  apply parse_ext. intros k H.
  rewrite get_without_manual by (apply canonical_ne_manual, H).
  rewrite get_canonical_fields by exact H. reflexivity.
Qed.

Lemma typed_as_ext a b d :
  (∀ k, k ∈ canonical_keys → a.[k] = b.[k]) →
  Spec.typed_as a d → Spec.typed_as b d.
Proof.
  intros H. unfold Spec.typed_as.
  rewrite !H by (unfold canonical_keys; set_solver). auto.
Qed.

Lemma post_root_manual env o w :
  truthy (VObj o).["manual"] = true →
  router.post_root env (VObj o) w =
    match weatherSchema.parse (VObj (canonical_fields (VObj o))) with
    | inl err => (inl err, w)
    | inr parsed =>
        match Weather.create env parsed w with
        | (inl err, w') => (inl err, w')
        | (inr created, w') => (inr {| status := 201; body := JDoc created |}, w')
        end
    end.
Proof.
  intros T. unfold router.post_root, router.destructure, bind, ret, lift.
  cbn [nullish]. cbv beta iota. rewrite T. cbn [own_props].
  rewrite parse_rest_canonical. reflexivity.
Qed.

(** C10.  For every manual create, the outcome is that of the same
    request with every key outside the schema removed and [manual] set to
    [true]; when it succeeds, the persisted record holds the canonical
    fields of the body, typed, next to the store's own [_id], timestamps
    and version key, and nothing else of the body. *)
Theorem manual_create_strips_other_keys (env : Env) (w : World)
    (o : list (string * value)) :
  truthy (VObj o).["manual"] = true →
  router.post_root env (VObj o) w
    = router.post_root env
        (VObj (("manual", VBool true) :: canonical_fields (VObj o))) w ∧
  ∀ res w',
    router.post_root env (VObj o) w = (inr res, w') →
    ∃ P,
      Spec.typed_as (VObj o) P ∧
      let oid := fresh (dom (collection w)) in
      let doc := {| data := P; createdAt := Date_now env;
                    updatedAt := Date_now env; __v := 0 |} in
      res = {| status := 201; body := JDoc {| _id := oid; document := doc |} |} ∧
      w' = with_collection (<[oid := doc]> (collection w)) w.
Proof.
  intros T. split.
  - rewrite (post_root_manual env o w T).
    rewrite (post_root_manual env _ w) by reflexivity.
    rewrite (parse_ext (canonical_fields (VObj (_ :: canonical_fields (VObj o))))
               (canonical_fields (VObj o))); [reflexivity|].
    intros k H. rewrite !get_canonical_fields by exact H.
    change ((VObj (("manual", VBool true) :: canonical_fields (VObj o))).[k])
      with (default VUndefined
              (if String.eqb k "manual" then Some (VBool true)
               else assoc k (canonical_fields (VObj o)))).
    destruct (String.eqb_spec k "manual") as [->|_].
    + apply canonical_ne_manual in H. contradiction.
    + apply (get_canonical_fields (VObj o) k H).
  - intros res w'. rewrite (post_root_manual env o w T).
    destruct (weatherSchema.parse _) as [err|P] eqn:E; [discriminate|].
    unfold Weather.create, bind. rewrite (validate_parsed _ _ _ E).
    destruct (Weather.checkRequired (city P)); [|discriminate].
    intros [= <- <-]. exists P. split; [|split; reflexivity].
    apply parse_inr in E as [_ E].
    eapply typed_as_ext; [|exact E].
    intros k H. apply get_canonical_fields, H.
Qed.

Lemma manual_create_strips_other_keys_witness :
  truthy (VObj noisy_props).["manual"] = true ∧
  router.post_root env_no_key (VObj noisy_props) empty_world
    = router.post_root env_no_key
        (VObj (("manual", VBool true) :: canonical_fields (VObj noisy_props)))
        empty_world ∧
  (router.post_root env_no_key (VObj noisy_props) empty_world).1
    = (router.post_root env_no_key (manual_body (makeFakeWeather "Testville"))
         empty_world).1.
Proof.
  split; [reflexivity|].
  destruct (manual_create_strips_other_keys env_no_key empty_world noisy_props
    eq_refl) as [H _].
  split; [exact H | reflexivity].
Defined.

(** ** Bodies parsed from JSON *)

Lemma json_prop o k v :
  is_json (VObj o) = true → assoc k o = Some v → is_json v = true.
Proof.
  cbn. induction o as [|[k' v'] o IH]; [discriminate|].
  cbn. intros [Hv Ho]%andb_prop.
  destruct (String.eqb k k'); [intros [= <-]; exact Hv | apply IH, Ho].
Qed.

Lemma json_fetchedAt v t :
  is_json v = true → v.["fetchedAt"] ≠ VDate (Some t).
Proof.
  intros J E. destruct v as [| | | | | |l|o]; try discriminate.
  cbn in E. destruct (assoc "fetchedAt" o) as [x|] eqn:A; [|discriminate].
  cbn in E. subst x. apply (json_prop _ _ _ J) in A. discriminate.
Qed.

Lemma no_date_never_validates req_body :
  (∀ t, req_body.["fetchedAt"] ≠ VDate (Some t)) →
  ∃ issues, weatherSchema.parse req_body = inl (ZodError issues).
Proof.
  intros N. pose proof (parse_cases req_body) as H.
  destruct (weatherSchema.parse req_body) as [err|d].
  - destruct H as (_ & issues & -> & _). eauto.
  - destruct H as [_ T]. exfalso.
    destruct T as (_ & _ & _ & _ & _ & _ & _ & _ & _ & _ & _ & T).
    exact (N _ T).
Qed.

(** A body that [express.json()] produced holds no [Date], so it never
    passes [weatherSchema]: [fetchedAt] is at best a string. *)
Lemma json_body_never_validates req_body :
  is_json req_body = true →
  ∃ issues, weatherSchema.parse req_body = inl (ZodError issues).
Proof.
  intros J. apply no_date_never_validates. intros t. apply json_fetchedAt, J.
Qed.

(** Hence a manual create or a replace whose body was parsed from JSON
    ends in a [ZodError], which Express answers with 500, and the world is
    as before. *)
Lemma json_manual_post_is_500 env o w :
  is_json (VObj o) = true →
  truthy (VObj o).["manual"] = true →
  ∃ issues,
    router.post_root env (VObj o) w = (inl (ZodError issues), w) ∧
    http_status (inl (ZodError issues)) = 500%nat.
Proof.
  intros J T. rewrite (post_root_manual env o w T).
  destruct (no_date_never_validates (VObj (canonical_fields (VObj o))))
    as [issues E].
  - intros t. rewrite get_canonical_fields by (unfold canonical_keys; set_solver).
    apply json_fetchedAt, J.
  - exists issues. rewrite E. split; reflexivity.
Qed.

Lemma json_put_is_500 env id req_body w :
  is_json req_body = true →
  ∃ issues,
    router.put_id env id req_body w = (inl (ZodError issues), w) ∧
    http_status (inl (ZodError issues)) = 500%nat.
Proof.
  intros J. destruct (json_body_never_validates req_body J) as [issues E].
  exists issues. unfold router.put_id, bind, lift. rewrite E. split; reflexivity.
Qed.

(** Newest first: three records fetched at different times. *)
Example sort_newest_first :
  let mk t := {| _id := 0%N;
                 document := {| data := {| city := ""; country := "";
                   coordinates := {| lon := zero; lat := zero |};
                   temp := zero; feelsLike := zero; humidity := zero;
                   pressure := zero; windSpeed := zero; condition := "";
                   description := ""; fetchedAt := t |};
                 createdAt := 0; updatedAt := 0; __v := 0 |} |} in
  (λ d, fetchedAt (data (document d))) <$>
    merge_sort Weather.newest_first [mk 5; mk 9; mk 7] = [9; 7; 5].
Proof. reflexivity. Qed.
(** ** Failing requests *)

Lemma create_outcome env d w :
  Weather.create env d w =
    match Weather.invalid_paths d with
    | [] =>
        let oid := fresh (dom (collection w)) in
        let doc := {| data := d; createdAt := Date_now env;
                      updatedAt := Date_now env; __v := 0 |} in
        (inr {| _id := oid; document := doc |},
         with_collection (<[oid := doc]> (collection w)) w)
    | paths => (inl (ValidationError paths), w)
    end.
Proof.
  unfold Weather.create, bind, Weather.validate.
  destruct (Weather.invalid_paths d); reflexivity.
Qed.

Lemma parse_create_outcome env candidate w :
  (let* parsed := lift (weatherSchema.parse candidate) in
   let* created := Weather.create env parsed in
   ret {| status := 201%nat; body := JDoc created |}) w =
  match weatherSchema.parse candidate with
  | inl err => (inl err, w)
  | inr d =>
      match Weather.invalid_paths d with
      | [] =>
          let oid := fresh (dom (collection w)) in
          let doc := {| data := d; createdAt := Date_now env;
                        updatedAt := Date_now env; __v := 0 |} in
          (inr {| status := 201; body := JDoc {| _id := oid; document := doc |} |},
           with_collection (<[oid := doc]> (collection w)) w)
      | paths => (inl (ValidationError paths), w)
      end
  end.
Proof.
  unfold bind at 1, lift. destruct (weatherSchema.parse candidate) as [e|d]; [reflexivity|].
  unfold bind, ret. rewrite create_outcome.
  destruct (Weather.invalid_paths d); reflexivity.
Qed.

Lemma parse_create_failure env candidate w err w' :
  (let* parsed := lift (weatherSchema.parse candidate) in
   let* created := Weather.create env parsed in
   ret {| status := 201%nat; body := JDoc created |}) w = (inl err, w') →
  w' = w.
Proof.
  rewrite parse_create_outcome.
  destruct (weatherSchema.parse candidate) as [e|d]; [congruence|].
  destruct (Weather.invalid_paths d); cbv zeta; congruence.
Qed.

Lemma post_root_failure env req_body w err w' :
  router.post_root env req_body w = (inl err, w') →
  collection w' = collection w.
Proof.
  unfold router.post_root, router.destructure.
  destruct (nullish req_body); [intros [= _ <-]; reflexivity|].
  unfold bind at 1, ret at 1. unfold bind at 1.
  destruct (truthy _).
  - unfold ret at 1. intros ->%parse_create_failure. reflexivity.
  - pose proof (fetch_candidate_collection env
      ((VObj (filter (λ kv : string * value, kv.1 ≠ "manual") (own_props req_body))).["city"]
         ||: of_option (DEFAULT_CITY env) ||: VStr "Philadelphia") w) as C.
    destruct (router.fetch_candidate _ _ w) as [[e|candidate] w1]; cbn in C.
    + intros [= _ <-]. exact C.
    + intros ->%parse_create_failure. exact C.
Qed.

Lemma post_fetch_failure env query_city w err w' :
  router.post_fetch env query_city w = (inl err, w') →
  collection w' = collection w.
Proof.
  unfold router.post_fetch. unfold bind at 1.
  pose proof (fetch_candidate_collection env
    (of_option query_city ||: of_option (DEFAULT_CITY env) ||: VStr "Philadelphia") w) as C.
  destruct (router.fetch_candidate _ _ w) as [[e|candidate] w1]; cbn in C.
  - intros [= _ <-]. exact C.
  - intros ->%parse_create_failure. exact C.
Qed.

Lemma put_id_outcome env id req_body w :
  router.put_id env id req_body w =
    match weatherSchema.parse req_body with
    | inl err => (inl err, w)
    | inr d =>
        match castObjectId id with
        | None => (inl (CastError "_id"), w)
        | Some oid =>
            match Weather.invalid_paths d with
            | [] =>
                match collection w !! oid with
                | None => (inl (createError 404 "Weather record not found"), w)
                | Some old =>
                    let doc := {| data := d; createdAt := createdAt old;
                                  updatedAt := Date_now env; __v := __v old |} in
                    (inr {| status := 200;
                            body := JDoc {| _id := oid; document := doc |} |},
                     with_collection (<[oid := doc]> (collection w)) w)
                end
            | paths => (inl (ValidationError paths), w)
            end
        end
    end.
Proof.
  unfold router.put_id, bind, lift.
  destruct (weatherSchema.parse req_body) as [e|d]; [reflexivity|].
  unfold Weather.findByIdAndUpdate, bind, Weather.castId, Weather.validate.
  destruct (castObjectId id) as [oid|]; [|reflexivity]. cbn.
  destruct (Weather.invalid_paths d); [|reflexivity]. cbn.
  destruct (collection w !! oid); reflexivity.
Qed.

Lemma delete_id_outcome id w :
  router.delete_id id w =
    match castObjectId id with
    | None => (inl (CastError "_id"), w)
    | Some oid =>
        match collection w !! oid with
        | Some doc => (inr {| status := 200; body := JDeleted oid |},
                       with_collection (delete oid (collection w)) w)
        | None => (inl (createError 404 "Weather record not found"), w)
        end
    end.
Proof.
  destruct (castObjectId id) as [oid|] eqn:C.
  - apply delete_id_run, C.
  - unfold router.delete_id, Weather.findByIdAndDelete, bind.
    rewrite (castId_None _ _ C). reflexivity.
Qed.

Lemma get_id_outcome id w :
  router.get_id id w =
    match castObjectId id with
    | None => (inl (CastError "_id"), w)
    | Some oid =>
        match collection w !! oid with
        | Some doc => (inr {| status := 200;
                              body := JDoc {| _id := oid; document := doc |} |}, w)
        | None => (inl (createError 404 "Weather record not found"), w)
        end
    end.
Proof.
  destruct (castObjectId id) as [oid|] eqn:C.
  - apply get_id_run, C.
  - unfold router.get_id, Weather.findById, bind.
    rewrite (castId_None _ _ C). reflexivity.
Qed.

Lemma parse_create_success env candidate w res w' :
  (let* parsed := lift (weatherSchema.parse candidate) in
   let* created := Weather.create env parsed in
   ret {| status := 201%nat; body := JDoc created |}) w = (inr res, w') →
  ∃ d,
    weatherSchema.parse candidate = inr d ∧
    Weather.invalid_paths d = [] ∧
    let oid := fresh (dom (collection w)) in
    let doc := {| data := d; createdAt := Date_now env;
                  updatedAt := Date_now env; __v := 0 |} in
    res = {| status := 201; body := JDoc {| _id := oid; document := doc |} |} ∧
    w' = with_collection (<[oid := doc]> (collection w)) w.
Proof.
  rewrite parse_create_outcome.
  destruct (weatherSchema.parse candidate) as [e|d]; [discriminate|].
  destruct (Weather.invalid_paths d) eqn:V; cbv zeta; [|discriminate].
  intros [= <- <-]. exists d. auto.
Qed.

(** A successful create, through either handler: the world [w1] in which
    the document is inserted differs from the world of the request at most
    by the provider call. *)
Lemma post_root_success env req_body w res w' :
  router.post_root env req_body w = (inr res, w') →
  ∃ d w1,
    collection w1 = collection w ∧
    Weather.invalid_paths d = [] ∧
    let oid := fresh (dom (collection w)) in
    let doc := {| data := d; createdAt := Date_now env;
                  updatedAt := Date_now env; __v := 0 |} in
    res = {| status := 201; body := JDoc {| _id := oid; document := doc |} |} ∧
    w' = with_collection (<[oid := doc]> (collection w)) w1.
Proof.
  unfold router.post_root, router.destructure.
  destruct (nullish req_body); [discriminate|].
  unfold bind at 1, ret at 1. unfold bind at 1.
  destruct (truthy _).
  - unfold ret at 1. intros (d & _ & V & H)%parse_create_success.
    exists d, w. auto.
  - pose proof (fetch_candidate_collection env
      ((VObj (filter (λ kv : string * value, kv.1 ≠ "manual") (own_props req_body))).["city"]
         ||: of_option (DEFAULT_CITY env) ||: VStr "Philadelphia") w) as C.
    destruct (router.fetch_candidate _ _ w) as [[e|candidate] w1]; cbn in C;
      [discriminate|].
    intros (d & _ & V & H)%parse_create_success.
    exists d, w1. rewrite C in H. auto.
Qed.

Lemma post_fetch_success env query_city w res w' :
  router.post_fetch env query_city w = (inr res, w') →
  ∃ d w1,
    collection w1 = collection w ∧
    Weather.invalid_paths d = [] ∧
    let oid := fresh (dom (collection w)) in
    let doc := {| data := d; createdAt := Date_now env;
                  updatedAt := Date_now env; __v := 0 |} in
    res = {| status := 201; body := JDoc {| _id := oid; document := doc |} |} ∧
    w' = with_collection (<[oid := doc]> (collection w)) w1.
Proof.
  unfold router.post_fetch. unfold bind at 1.
  pose proof (fetch_candidate_collection env
    (of_option query_city ||: of_option (DEFAULT_CITY env) ||: VStr "Philadelphia") w) as C.
  destruct (router.fetch_candidate _ _ w) as [[e|candidate] w1]; cbn in C;
    [discriminate|].
  intros (d & _ & V & H)%parse_create_success.
  exists d, w1. rewrite C in H. auto.
Qed.

(** X1.  A request that ends in an error leaves the collection as it was:
    no handler persists, replaces or removes a document and then fails. *)
Theorem failed_request_changes_no_document (env : Env) (w : World) :
  (∀ req_body,
     match router.post_root env req_body w with
     | (inl _, w') => collection w' = collection w
     | (inr res, _) => status res = 201%nat
     end) ∧
  (∀ query_city,
     match router.post_fetch env query_city w with
     | (inl _, w') => collection w' = collection w
     | (inr res, _) => status res = 201%nat
     end) ∧
  (∀ id req_body,
     match router.put_id env id req_body w with
     | (inl _, w') => w' = w
     | (inr res, _) => status res = 200%nat
     end) ∧
  (∀ id,
     match router.delete_id id w with
     | (inl _, w') => w' = w
     | (inr res, _) => status res = 200%nat
     end) ∧
  (∀ id, (router.get_id id w).2 = w).
Proof.
  repeat split.
  - intros req_body.
    destruct (router.post_root env req_body w) as [[err|res] w'] eqn:E.
    + eapply post_root_failure, E.
    + apply post_root_success in E as (d & w1 & _ & _ & -> & _). reflexivity.
  - intros query_city.
    destruct (router.post_fetch env query_city w) as [[err|res] w'] eqn:E.
    + eapply post_fetch_failure, E.
    + apply post_fetch_success in E as (d & w1 & _ & _ & -> & _). reflexivity.
  - intros id req_body. rewrite put_id_outcome.
    destruct (weatherSchema.parse req_body); [reflexivity|].
    destruct (castObjectId id); [|reflexivity].
    destruct (Weather.invalid_paths _); [|reflexivity].
    destruct (collection w !! _); reflexivity.
  - intros id. rewrite delete_id_outcome.
    destruct (castObjectId id); [|reflexivity].
    destruct (collection w !! _); reflexivity.
  - intros id. rewrite get_id_outcome.
    destruct (castObjectId id); [|reflexivity].
    destruct (collection w !! _); reflexivity.
Qed.

(** ** A created record *)

Lemma created_record env w w1 d :
  collection w1 = collection w →
  Weather.invalid_paths d = [] →
  let oid := fresh (dom (collection w)) in
  let doc := {| data := d; createdAt := Date_now env;
                updatedAt := Date_now env; __v := 0 |} in
  let w' := with_collection (<[oid := doc]> (collection w)) w1 in
  collection w !! oid = None ∧
  collection w' !! oid = Some doc ∧
  (∀ k, k ≠ oid → collection w' !! k = collection w !! k) ∧
  size (collection w') = S (size (collection w)) ∧
  city d ≠ "" ∧
  ∀ id, castObjectId id = Some oid →
        router.get_id id w'
          = (inr {| status := 200; body := JDoc {| _id := oid; document := doc |} |}, w').
Proof.
  intros C V oid doc w'. pose proof (fresh_not_stored w) as F. fold oid in F.
  split; [exact F|]. split; [apply lookup_insert_eq|].
  split; [intros k N; apply lookup_insert_ne; congruence|].
  split; [apply map_size_insert_None, F|].
  split; [apply invalid_paths_nil_city, V|].
  intros id E. rewrite (get_id_run _ _ _ E).
  unfold w' at 1. cbn [collection with_collection].
  rewrite lookup_insert_eq. reflexivity.
Qed.

(** X2.  When [POST /] or [POST /fetch] answers 201, the record of the
    answer is in the collection under an [_id] that no document had, every
    other document is as before, the collection has grown by one, and
    [GET /:id] with that id answers 200 with the very same record. *)
Theorem created_record_is_stored_and_readable (env : Env) (w w' : World)
    (req_body : value) (query_city : option string) (res : Response) :
  router.post_root env req_body w = (inr res, w') ∨
  router.post_fetch env query_city w = (inr res, w') →
  ∃ d,
    res = {| status := 201; body := JDoc d |} ∧
    collection w !! _id d = None ∧
    collection w' !! _id d = Some (document d) ∧
    (∀ k, k ≠ _id d → collection w' !! k = collection w !! k) ∧
    size (collection w') = S (size (collection w)) ∧
    city (data (document d)) ≠ "" ∧
    ∀ id, castObjectId id = Some (_id d) →
          router.get_id id w' = (inr {| status := 200; body := JDoc d |}, w').
Proof.
  intros [E|E].
  - apply post_root_success in E as (d & w1 & C & V & -> & ->).
    eexists. split; [reflexivity|]. apply (created_record env w w1 d C V).
  - apply post_fetch_success in E as (d & w1 & C & V & -> & ->).
    eexists. split; [reflexivity|]. apply (created_record env w w1 d C V).
Qed.

Lemma created_record_is_stored_and_readable_witness :
  let w := three_cities in
  let w' := (router.post_fetch env_with_key (Some "London") w).2 in
  ∃ res d,
    router.post_fetch env_with_key (Some "London") w = (inr res, w') ∧
    res = {| status := 201; body := JDoc d |} ∧
    city (data (document d)) = "London" ∧
    collection w' !! _id d = Some (document d) ∧
    size (collection w') = 4%nat ∧
    http_status (router.get_id "000000000000000000000003" w').1 = 200%nat.
Proof.
  cbv zeta.
  destruct (router.post_fetch env_with_key (Some "London") three_cities)
    as [[err|res] w'] eqn:E; [vm_compute in E; discriminate|].
  cbn [snd].
  destruct (created_record_is_stored_and_readable env_with_key three_cities w'
    VNull (Some "London") res (or_intror E)) as (d & R & _ & S & _ & Z & _ & G).
  exists res, d. split; [reflexivity|]. split; [exact R|].
  assert (res = {| status := 201; body := JDoc d |} ∧ _id d = 3%N
          ∧ city (data (document d)) = "London") as (_ & I & CL).
  { vm_compute in E. injection E as <- _. injection R as <-. auto. }
  split; [exact CL|]. split; [exact S|].
  split; [rewrite Z; reflexivity|].
  rewrite (G "000000000000000000000003"); [reflexivity|]. rewrite I. reflexivity.
Defined.

(** ** Bodies parsed from JSON, again *)

Lemma fetchedAt_offends o :
  (∀ t, (VObj o).["fetchedAt"] ≠ VDate (Some t)) →
  ∃ issues,
    weatherSchema.parse (VObj o) = inl (ZodError issues) ∧
    ["fetchedAt"] ∈ z.path <$> issues.
Proof.
  intros N. pose proof (parse_cases (VObj o)) as H.
  destruct (weatherSchema.parse (VObj o)) as [err|d].
  - destruct H as (_ & issues & -> & _ & P). exists issues.
    split; [reflexivity|]. rewrite P. unfold Spec.offending_fields.
    assert (Spec.is_valid_date (VObj o).["fetchedAt"] = false) as ->.
    { destruct ((VObj o).["fetchedAt"]) as [| | | | |[t|]| |]; try reflexivity.
      destruct (N t). reflexivity. }
    do 10 (apply elem_of_app; right). cbn. apply list_elem_of_here.
  - destruct H as [_ T]. exfalso.
    destruct T as (_ & _ & _ & _ & _ & _ & _ & _ & _ & _ & _ & T).
    exact (N _ T).
Qed.

(** X3.  A body that was parsed from JSON holds no [Date], so validation
    refuses it with an issue at [fetchedAt]: [PUT /:id] with such a body,
    and [POST /] with such a body and a truthy [manual], hand a [ZodError]
    to Express, which answers 500; nothing is read from the provider and
    nothing is stored. *)
Theorem json_body_is_refused (env : Env) (w : World) (o : list (string * value)) :
  is_json (VObj o) = true →
  (∀ id, ∃ issues,
     router.put_id env id (VObj o) w = (inl (ZodError issues), w) ∧
     ["fetchedAt"] ∈ z.path <$> issues ∧
     http_status (router.put_id env id (VObj o) w).1 = 500%nat) ∧
  (truthy (VObj o).["manual"] = true →
   ∃ issues,
     router.post_root env (VObj o) w = (inl (ZodError issues), w) ∧
     ["fetchedAt"] ∈ z.path <$> issues ∧
     http_status (router.post_root env (VObj o) w).1 = 500%nat).
Proof.
  intros J. split.
  - intros id. destruct (fetchedAt_offends o) as (issues & E & P).
    { intros t. apply json_fetchedAt, J. }
    exists issues. rewrite put_id_outcome, E. auto.
  - intros T. rewrite (post_root_manual env o w T).
    destruct (fetchedAt_offends (canonical_fields (VObj o))) as (issues & E & P).
    { intros t. rewrite get_canonical_fields by (unfold canonical_keys; set_solver).
      apply json_fetchedAt, J. }
    exists issues. rewrite E. auto.
Qed.

Lemma json_body_is_refused_witness :
  is_json (VObj json_manual_props) = true ∧
  truthy (VObj json_manual_props).["manual"] = true ∧
  router.post_root env_no_key (VObj json_manual_props) three_cities
    = (inl (ZodError [ {| z.code := z.invalid_type; z.path := ["fetchedAt"] |} ]),
       three_cities) ∧
  http_status
    (router.put_id env_no_key "000000000000000000000001"
       (VObj json_manual_props) three_cities).1 = 500%nat.
Proof.
  split; [reflexivity|]. split; [reflexivity|].
  destruct (json_body_is_refused env_no_key three_cities json_manual_props eq_refl)
    as [Hput Hpost].
  split.
  - destruct (Hpost eq_refl) as (issues & E & _ & _). rewrite E.
    vm_compute in E. injection E as <-. reflexivity.
  - destruct (Hput "000000000000000000000001") as (issues & _ & _ & S). exact S.
Defined.

(** ** Validation, once more *)

Lemma parsed_satisfies payload d :
  weatherSchema.parse payload = inr d →
  Spec.satisfies_schema (VObj (props_of d)) = true.
Proof.
  intros [S T]%parse_inr.
  destruct payload as [| | | | | | |o]; try discriminate.
  destruct T as (T1 & T2 & T3 & T4 & T5 & T6 & T7 & T8 & T9 & T10 & T11 & T12).
  unfold Spec.satisfies_schema in S.
  rewrite T1, T2, T3, T4, T5, T6, T7, T8, T9, T10, T11, T12 in S.
  rewrite satisfies_props_of. cbn in S. rewrite !andb_true_r in S. exact S.
Qed.

(** X4.  Validation is a projection: the object it returns validates to
    itself, so validating twice is validating once, and a record written
    out as an object literal that satisfies the schema is returned as it
    is. *)
Theorem parse_is_idempotent (payload : value) :
  match weatherSchema.parse payload with
  | inr d => weatherSchema.parse (VObj (props_of d)) = inr d
  | inl _ => True
  end.
Proof.
  destruct (weatherSchema.parse payload) as [err|d] eqn:E; [exact I|].
  apply parse_props_of, (parsed_satisfies _ _ E).
Qed.

(** ** The provider request *)

Lemma fetchWeather_calls env city apiKey w :
  provider_calls (fetchWeather env city apiKey w).2
  = provider_calls w ++ [(city, apiKey)].
Proof.
  unfold fetchWeather, bind, axios.get.
  destruct (provider env city apiKey) as [data|]; [|reflexivity].
  destruct (nullish data); reflexivity.
Qed.

Lemma fetch_candidate_calls env city w :
  provider_calls (router.fetch_candidate env city w).2
  = provider_calls w ++ provider_request env city.
Proof.
  unfold router.fetch_candidate, provider_request.
  destruct (OPENWEATHER_API_KEY env) as [k|]; [|cbn; rewrite app_nil_r; reflexivity].
  cbn [truthy]. destruct (String.eqb k ""); cbn [negb].
  - cbn. rewrite app_nil_r. reflexivity.
  - apply fetchWeather_calls.
Qed.

Lemma parse_create_calls env candidate w :
  provider_calls
    ((let* parsed := lift (weatherSchema.parse candidate) in
      let* created := Weather.create env parsed in
      ret {| status := 201%nat; body := JDoc created |}) w).2
  = provider_calls w.
Proof.
  rewrite parse_create_outcome.
  destruct (weatherSchema.parse candidate) as [e|d]; [reflexivity|].
  destruct (Weather.invalid_paths d); reflexivity.
Qed.

(** X5.  A request reaches the provider at most once, and only through
    the Normalizer: [POST /fetch] asks once when the API key is set, for
    the city of the query, else [DEFAULT_CITY], else Philadelphia;
    [POST /] does the same with the city of the body when [manual] is not
    truthy, and asks nothing when it is; the other handlers never ask.
    There is no retry, whatever the provider answers. *)
Theorem provider_is_asked_at_most_once (env : Env) (w : World) :
  (∀ query_city,
     provider_calls (router.post_fetch env query_city w).2
     = provider_calls w
       ++ provider_request env (city_or_default env (of_option query_city))) ∧
  (∀ o,
     provider_calls (router.post_root env (VObj o) w).2
     = provider_calls w
       ++ if truthy (VObj o).["manual"] then []
          else provider_request env (city_or_default env (VObj o).["city"])) ∧
  (∀ id req_body,
     provider_calls (router.put_id env id req_body w).2 = provider_calls w) ∧
  (∀ id, provider_calls (router.delete_id id w).2 = provider_calls w) ∧
  (∀ id, provider_calls (router.get_id id w).2 = provider_calls w).
Proof.
  split; [|split; [|split; [|split]]].
  - intros query_city. unfold router.post_fetch. unfold bind at 1.
    pose proof (fetch_candidate_calls env
      (city_or_default env (of_option query_city)) w) as C.
    unfold city_or_default in *.
    destruct (router.fetch_candidate _ _ w) as [[e|candidate] w1]; cbn in C;
      [exact C|].
    rewrite parse_create_calls. exact C.
  - intros o. unfold router.post_root, router.destructure.
    cbn [nullish]. unfold bind at 1, ret at 1. unfold bind at 1.
    cbn [own_props].
    destruct (truthy (VObj o).["manual"]).
    + unfold ret at 1. rewrite parse_create_calls, app_nil_r. reflexivity.
    + rewrite get_without_manual by discriminate.
      pose proof (fetch_candidate_calls env
        (city_or_default env (VObj o).["city"]) w) as C.
      unfold city_or_default in *.
      destruct (router.fetch_candidate _ _ w) as [[e|candidate] w1]; cbn in C;
        [exact C|].
      rewrite parse_create_calls. exact C.
  - intros id req_body. rewrite put_id_outcome.
    destruct (weatherSchema.parse req_body); [reflexivity|].
    destruct (castObjectId id); [|reflexivity].
    destruct (Weather.invalid_paths _); [|reflexivity].
    destruct (collection w !! _); reflexivity.
  - intros id. rewrite delete_id_outcome.
    destruct (castObjectId id); [|reflexivity].
    destruct (collection w !! _); reflexivity.
  - intros id. rewrite get_id_outcome.
    destruct (castObjectId id); [|reflexivity].
    destruct (collection w !! _); reflexivity.
Qed.

(** ** What the Normalizer's output is worth *)

Lemma fetch_candidate_with_key env city w k :
  OPENWEATHER_API_KEY env = Some k → k ≠ "" →
  router.fetch_candidate env city w = fetchWeather env city k w.
Proof.
  intros E N. unfold router.fetch_candidate. rewrite E. cbn [truthy].
  destruct (String.eqb_spec k ""); [contradiction | reflexivity].
Qed.

Lemma coalesce_ok (ok : value → bool) a fallback :
  ok fallback = true → ok (a ?? fallback) = missing_or ok a.
Proof.
  intros F. unfold coalesce, missing_or.
  destruct (nullish a); [exact F | reflexivity].
Qed.

Lemma fetchWeather_with_data env city k w data :
  provider env city k = Resolved data →
  nullish data = false →
  fetchWeather env city k w =
    (inr (normalized (Date_now env) data),
     {| collection := collection w;
        provider_calls := provider_calls w ++ [(city, k)] |}).
Proof.
  intros R D. unfold fetchWeather, bind, axios.get. rewrite R, D.
  unfold ret, normalized.
  rewrite <- !(opt_get_at_path3 data) by exact D.
  rewrite <- !(opt_get_at_path data) by exact D.
  reflexivity.
Qed.

Lemma normalized_satisfies now data :
  Spec.satisfies_schema (normalized now data)
  = Spec.is_string data.["name"] &&
    missing_or (Spec.is_string_of_length_at_least 2) (at_path data ["sys"; "country"]) &&
    missing_or Spec.is_number (at_path data ["coord"; "lon"]) &&
    missing_or Spec.is_number (at_path data ["coord"; "lat"]) &&
    missing_or Spec.is_number (at_path data ["main"; "temp"]) &&
    missing_or Spec.is_number (at_path data ["main"; "feels_like"]) &&
    missing_or Spec.is_integer (at_path data ["main"; "humidity"]) &&
    missing_or Spec.is_integer (at_path data ["main"; "pressure"]) &&
    missing_or Spec.is_number (at_path data ["wind"; "speed"]) &&
    missing_or Spec.is_string (at_path data ["weather"; "0"; "main"]) &&
    missing_or Spec.is_string (at_path data ["weather"; "0"; "description"]).
Proof.
  unfold Spec.satisfies_schema, normalized.
  cbn [get assoc String.eqb Ascii.eqb Bool.eqb default from_option id].
  rewrite !(coalesce_ok Spec.is_number), !(coalesce_ok Spec.is_integer),
    !(coalesce_ok Spec.is_string),
    !(coalesce_ok (Spec.is_string_of_length_at_least 2)) by reflexivity.
  cbn [Spec.is_valid_date]. rewrite andb_true_r. reflexivity.
Qed.

Lemma post_fetch_with_data env w query_city k data :
  OPENWEATHER_API_KEY env = Some k → k ≠ "" →
  provider env (city_or_default env (of_option query_city)) k = Resolved data →
  nullish data = false →
  router.post_fetch env query_city w =
    (let* parsed := lift (weatherSchema.parse (normalized (Date_now env) data)) in
     let* created := Weather.create env parsed in
     ret {| status := 201%nat; body := JDoc created |})
      {| collection := collection w;
         provider_calls := provider_calls w
           ++ [(city_or_default env (of_option query_city), k)] |}.
Proof.
  intros K N R D. unfold router.post_fetch. unfold bind at 1.
  fold (city_or_default env (of_option query_city)).
  rewrite (fetch_candidate_with_key _ _ _ _ K N).
  rewrite (fetchWeather_with_data _ _ _ _ _ R D). reflexivity.
Qed.

Lemma acceptable_response_spec now data :
  acceptable_response data
  = Spec.satisfies_schema (normalized now data) &&
    match data.["name"] with
    | VStr name => negb (String.eqb name "")
    | _ => false
    end.
Proof.
  rewrite normalized_satisfies. unfold acceptable_response.
  destruct (data.["name"]) as [| |b|n|name|t|items|props]; cbn [Spec.is_string andb];
    try reflexivity; try (rewrite andb_false_r; reflexivity).
  destruct (String.eqb name ""); cbn [negb andb];
    [rewrite andb_false_r | rewrite andb_true_r]; reflexivity.
Qed.

(** X6.  With the API key set and an answer with a body from the provider,
    [POST /fetch] answers 201 exactly when the answer is usable: [name] is
    a non-empty string and every other field it reads is missing or of the
    type the schema wants.  The record then has the provider's [name] as
    [city] and the time of the request as [fetchedAt].  Any other answer,
    for instance a fractional humidity or a one-letter country code, ends
    in status 500 with nothing stored. *)
Theorem fetch_accepts_exactly_usable_responses (env : Env) (w : World)
    (query_city : option string) (k : string) (data : value) :
  OPENWEATHER_API_KEY env = Some k → k ≠ "" →
  provider env (city_or_default env (of_option query_city)) k = Resolved data →
  nullish data = false →
  let w1 := {| collection := collection w;
               provider_calls := provider_calls w
                 ++ [(city_or_default env (of_option query_city), k)] |} in
  if acceptable_response data then
    ∃ d,
      weatherSchema.parse (normalized (Date_now env) data) = inr d ∧
      data.["name"] = VStr (city d) ∧
      fetchedAt d = Date_now env ∧
      let oid := fresh (dom (collection w)) in
      let doc := {| data := d; createdAt := Date_now env;
                    updatedAt := Date_now env; __v := 0 |} in
      router.post_fetch env query_city w =
        (inr {| status := 201; body := JDoc {| _id := oid; document := doc |} |},
         with_collection (<[oid := doc]> (collection w)) w1)
  else
    ∃ err,
      router.post_fetch env query_city w = (inl err, w1) ∧
      http_status (inl err) = 500%nat.
Proof.
  intros K N R D w1.
  rewrite (post_fetch_with_data env w query_city k data K N R D).
  fold w1. rewrite parse_create_outcome.
  rewrite (acceptable_response_spec (Date_now env) data).
  pose proof (parse_cases (normalized (Date_now env) data)) as H.
  destruct (weatherSchema.parse (normalized (Date_now env) data)) as [err|d] eqn:P.
  - destruct H as (-> & issues & -> & _). cbn [andb].
    eexists. split; reflexivity.
  - destruct H as [-> T]. cbn [andb].
    rewrite (parsed_invalid_paths _ _ P).
    destruct T as (Tcity & _ & _ & _ & _ & _ & _ & _ & _ & _ & _ & Tat).
    cbn in Tcity, Tat. injection Tat as Tat. rewrite Tcity.
    unfold Weather.checkRequired.
    destruct (String.eqb (city d) ""); cbn [negb Weather.check].
    + eexists. split; reflexivity.
    + exists d. auto.
Qed.

Lemma fetch_accepts_exactly_usable_responses_witness :
  acceptable_response (VObj [("name", VStr "Nowhere")]) = true ∧
  (∃ w',
     router.post_fetch env_thin (Some "Nowhere") three_cities
       = (inr {| status := 201;
                 body := JDoc {| _id := 3%N;
                   document := {| data := defaults_for "Nowhere" (Date_now env_thin);
                                  createdAt := Date_now env_thin;
                                  updatedAt := Date_now env_thin; __v := 0 |} |} |},
          w')) ∧
  acceptable_response
    (VObj [("name", VStr "Nowhere");
           ("main", VObj [("humidity", VNum (Finite 111 (-1)))])]) = false ∧
  (∃ err w',
     router.post_fetch env_fractional (Some "Nowhere") three_cities = (inl err, w') ∧
     collection w' = collection three_cities ∧
     http_status (inl err) = 500%nat).
Proof.
  split; [reflexivity|]. split.
  - pose proof (fetch_accepts_exactly_usable_responses env_thin three_cities
      (Some "Nowhere") "secret" (VObj [("name", VStr "Nowhere")])
      eq_refl ltac:(discriminate) eq_refl eq_refl) as H.
    cbv zeta in H.
    change (acceptable_response (VObj [("name", VStr "Nowhere")])) with true in H.
    cbv iota in H. destruct H as (d & P & _ & _ & E).
    eexists. rewrite E. vm_compute in P. injection P as <-. reflexivity.
  - split; [reflexivity|].
    pose proof (fetch_accepts_exactly_usable_responses env_fractional three_cities
      (Some "Nowhere") "secret"
      (VObj [("name", VStr "Nowhere");
             ("main", VObj [("humidity", VNum (Finite 111 (-1)))])])
      eq_refl ltac:(discriminate) eq_refl eq_refl) as H.
    cbv zeta in H.
    change (acceptable_response _) with false in H.
    cbv iota in H. destruct H as (err & E & S).
    exists err. eexists. split; [exact E|]. split; [reflexivity | exact S].
Defined.

(** ** When the provider fails *)

Lemma fetchWeather_failed env city k w err :
  provider_failure (provider env city k) = Some err →
  fetchWeather env city k w =
    (inl err,
     {| collection := collection w;
        provider_calls := provider_calls w ++ [(city, k)] |}).
Proof.
  unfold provider_failure, fetchWeather, bind, axios.get.
  destruct (provider env city k) as [data|st].
  - destruct (nullish data); [|discriminate]. intros [= <-]. reflexivity.
  - intros [= <-]. reflexivity.
Qed.

Lemma fetch_then_store_failed env city k w err :
  OPENWEATHER_API_KEY env = Some k → k ≠ "" →
  provider_failure (provider env city k) = Some err →
  (let* candidate := router.fetch_candidate env city in
   let* parsed := lift (weatherSchema.parse candidate) in
   let* created := Weather.create env parsed in
   ret {| status := 201%nat; body := JDoc created |}) w =
    (inl err,
     {| collection := collection w;
        provider_calls := provider_calls w ++ [(city, k)] |}).
Proof.
  intros K N F. unfold bind at 1.
  rewrite (fetch_candidate_with_key _ _ _ _ K N), (fetchWeather_failed _ _ _ _ _ F).
  reflexivity.
Qed.

(** X7.  With the API key set, a failure of the provider is the failure of
    the request: [POST /fetch] and a [POST /] without [manual] end with the
    error axios threw for a non-2xx answer, or with the [TypeError] of
    reading [data.name] when the answer has no body.  The provider was asked
    once, nothing is stored, and the client sees the provider's own status
    when that is a 4xx or 5xx (404 for a city the provider does not know)
    and 500 otherwise. *)
Theorem provider_failure_is_the_response (env : Env) (w : World) (k : string)
    (city : value) (err : error) :
  OPENWEATHER_API_KEY env = Some k → k ≠ "" →
  provider_failure (provider env (city_or_default env city) k) = Some err →
  let w1 := {| collection := collection w;
               provider_calls := provider_calls w
                 ++ [(city_or_default env city, k)] |} in
  (∀ query_city, of_option query_city = city →
     router.post_fetch env query_city w = (inl err, w1)) ∧
  (∀ o, truthy (VObj o).["manual"] = false → (VObj o).["city"] = city →
     router.post_root env (VObj o) w = (inl err, w1)) ∧
  (∀ st, err = AxiosError (Some st) → (400 ≤ st < 600)%nat →
     http_status (inl err) = st) ∧
  (err = TypeError ∨ err = AxiosError None → http_status (inl err) = 500%nat).
Proof.
  intros K N F w1. split; [|split; [|split]].
  - intros query_city <-. unfold router.post_fetch.
    fold (city_or_default env (of_option query_city)).
    apply (fetch_then_store_failed _ _ _ _ _ K N F).
  - intros o M <-. unfold router.post_root, router.destructure.
    cbn [nullish]. unfold bind at 1, ret at 1. rewrite M. cbn [own_props].
    rewrite get_without_manual by discriminate.
    fold (city_or_default env (VObj o).["city"]).
    apply (fetch_then_store_failed _ _ _ _ _ K N F).
  - intros st -> [L U]. unfold http_status, default_error_status, err_status.
    apply Nat.leb_le in L. apply Nat.ltb_lt in U. rewrite L, U. reflexivity.
  - intros [-> | ->]; reflexivity.
Qed.

Lemma provider_failure_is_the_response_witness :
  router.post_fetch env_with_key (Some "Atlantis") three_cities
    = (inl (AxiosError (Some 404%nat)),
       {| collection := collection three_cities;
          provider_calls := [(VStr "Atlantis", "secret")] |}) ∧
  http_status (inl (AxiosError (Some 404%nat))) = 404%nat.
Proof.
  destruct (provider_failure_is_the_response env_with_key three_cities "secret"
    (VStr "Atlantis") (AxiosError (Some 404%nat)) eq_refl ltac:(discriminate) eq_refl)
    as (Hfetch & _ & Hstatus & _).
  split.
  - apply (Hfetch (Some "Atlantis")). reflexivity.
  - apply (Hstatus 404%nat); [reflexivity | lia].
Defined.

(** ** What an update touches *)

(** X8.  A [PUT] that succeeds is an update in place and never an upsert:
    the id was stored before, the ids of the collection are the same after,
    every other document is what it was, and the document keeps its
    [createdAt] and version key while [updatedAt] is the time of the
    request.  A [GET] of the id then answers with the body the [PUT]
    answered with, and sending the same [PUT] again changes nothing but
    [updatedAt]. *)
Theorem put_updates_in_place (env : Env) (w w' : World) (id : string)
    (req_body : value) (res : Response) :
  router.put_id env id req_body w = (inr res, w') →
  ∃ oid old d,
    castObjectId id = Some oid ∧
    collection w !! oid = Some old ∧
    weatherSchema.parse req_body = inr d ∧
    let doc := {| data := d; createdAt := createdAt old;
                  updatedAt := Date_now env; __v := __v old |} in
    res = {| status := 200; body := JDoc {| _id := oid; document := doc |} |} ∧
    collection w' !! oid = Some doc ∧
    (∀ k, k ≠ oid → collection w' !! k = collection w !! k) ∧
    dom (collection w') = dom (collection w) ∧
    size (collection w') = size (collection w) ∧
    router.get_id id w' = (inr res, w') ∧
    ∀ env2,
      let doc2 := {| data := d; createdAt := createdAt old;
                     updatedAt := Date_now env2; __v := __v old |} in
      router.put_id env2 id req_body w' =
        (inr {| status := 200; body := JDoc {| _id := oid; document := doc2 |} |},
         with_collection (<[oid := doc2]> (collection w)) w) ∧
      (Date_now env2 = Date_now env →
       router.put_id env2 id req_body w' = (inr res, w')).
Proof.
  rewrite put_id_outcome.
  destruct (weatherSchema.parse req_body) as [e|d] eqn:P; [discriminate|].
  destruct (castObjectId id) as [oid|] eqn:C; [|discriminate].
  destruct (Weather.invalid_paths d) eqn:V; [|discriminate].
  destruct (collection w !! oid) as [old|] eqn:L; [|discriminate].
  cbv zeta. intros [= <- <-]. exists oid, old, d.
  split; [reflexivity|]. split; [exact L|]. split; [reflexivity|].
  split; [reflexivity|]. cbn [collection with_collection].
  split; [apply lookup_insert_eq|].
  split; [intros k N; apply lookup_insert_ne; congruence|].
  split; [apply dom_insert_lookup_L; exists old; exact L|].
  split; [apply map_size_insert_Some; exists old; exact L|].
  split.
  { rewrite get_id_outcome, C. cbn [collection with_collection].
    rewrite lookup_insert_eq. reflexivity. }
  intros env2.
  assert (router.put_id env2 id req_body
            (with_collection
               (<[oid := {| data := d; createdAt := createdAt old;
                            updatedAt := Date_now env; __v := __v old |}]>
                  (collection w)) w)
          = (inr {| status := 200;
                    body := JDoc {| _id := oid;
                      document := {| data := d; createdAt := createdAt old;
                                     updatedAt := Date_now env2;
                                     __v := __v old |} |} |},
             with_collection
               (<[oid := {| data := d; createdAt := createdAt old;
                            updatedAt := Date_now env2; __v := __v old |}]>
                  (collection w)) w)) as E.
  { rewrite put_id_outcome, P, C, V. cbn [collection with_collection].
    rewrite lookup_insert_eq. cbv zeta. cbn [createdAt __v].
    unfold with_collection. cbn [collection provider_calls].
    rewrite insert_insert_eq. reflexivity. }
  split; [exact E|]. intros T. rewrite E, T. reflexivity.
Qed.

Lemma put_updates_in_place_witness :
  let id := "000000000000000000000001" in
  let req_body := VObj (props_of (makeFakeWeather "Testville")) in
  ∃ res w',
    router.put_id env_with_key id req_body three_cities = (inr res, w') ∧
    status res = 200%nat ∧
    dom (collection w') = dom (collection three_cities) ∧
    router.get_id id w' = (inr res, w') ∧
    router.put_id env_with_key id req_body w' = (inr res, w').
Proof.
  cbv zeta.
  destruct (router.put_id env_with_key "000000000000000000000001"
              (VObj (props_of (makeFakeWeather "Testville"))) three_cities)
    as [[e|res] w'] eqn:E; [discriminate E|].
  destruct (put_updates_in_place env_with_key three_cities w'
    "000000000000000000000001" (VObj (props_of (makeFakeWeather "Testville")))
    res E) as (oid & old & d & _ & _ & _ & R & _ & _ & D & _ & G & I).
  exists res, w'. split; [reflexivity|]. split; [rewrite R; reflexivity|].
  split; [exact D|]. split; [exact G|]. apply (I env_with_key), eq_refl.
Defined.

(** X9.  [DELETE] of the record a create has just answered with gives back
    the collection as it was before the create. *)
Theorem delete_undoes_create (env : Env) (w w' : World) (req_body : value)
    (query_city : option string) (res : Response) :
  router.post_root env req_body w = (inr res, w') ∨
  router.post_fetch env query_city w = (inr res, w') →
  ∃ d,
    body res = JDoc d ∧
    ∀ id, castObjectId id = Some (_id d) →
      ∃ w'',
        router.delete_id id w'
          = (inr {| status := 200; body := JDeleted (_id d) |}, w'') ∧
        collection w'' = collection w ∧
        provider_calls w'' = provider_calls w'.
Proof.
  assert (∀ d w1,
    collection w1 = collection w →
    let oid := fresh (dom (collection w)) in
    let doc := {| data := d; createdAt := Date_now env;
                  updatedAt := Date_now env; __v := 0 |} in
    ∀ id, castObjectId id = Some oid →
      ∃ w'',
        router.delete_id id (with_collection (<[oid := doc]> (collection w)) w1)
          = (inr {| status := 200; body := JDeleted oid |}, w'') ∧
        collection w'' = collection w ∧
        provider_calls w'' = provider_calls w1) as H.
  { intros d w1 C oid doc id E. rewrite delete_id_outcome, E.
    cbn [collection with_collection]. rewrite lookup_insert_eq.
    eexists. split; [reflexivity|]. cbn [collection with_collection provider_calls].
    split; [|reflexivity]. apply delete_insert_id, fresh_not_stored. }
  intros [E|E].
  - apply post_root_success in E as (d & w1 & C & V & -> & ->).
    eexists. split; [reflexivity|]. apply (H d w1 C).
  - apply post_fetch_success in E as (d & w1 & C & V & -> & ->).
    eexists. split; [reflexivity|]. apply (H d w1 C).
Qed.

Lemma delete_undoes_create_witness :
  let w := three_cities in
  let w' := (router.post_fetch env_with_key (Some "London") w).2 in
  size (collection w') = 4%nat ∧
  ∃ res w'',
    router.post_fetch env_with_key (Some "London") w = (inr res, w') ∧
    router.delete_id "000000000000000000000003" w'
      = (inr {| status := 200; body := JDeleted 3%N |}, w'') ∧
    collection w'' = collection w.
Proof.
  cbv zeta. split; [reflexivity|].
  destruct (router.post_fetch env_with_key (Some "London") three_cities)
    as [[e|res] w'] eqn:E; [discriminate E|].
  destruct (delete_undoes_create env_with_key three_cities w' VUndefined
    (Some "London") res (or_intror E)) as (d & B & H).
  assert (_id d = 3%N) as I.
  { vm_compute in E. injection E as <- <-. cbn in B. injection B as <-. reflexivity. }
  rewrite I in H. destruct (H "000000000000000000000003" eq_refl) as (w'' & D & C & _).
  exists res, w''. cbn [snd]. auto.
Defined.

(** X10.  A [PUT] under a malformed id is never answered with 404 and
    changes nothing: the body is validated before the id is looked at, so
    a body that fails the schema gives the [ZodError], and any other body
    the [CastError] of the id; both are status 500. *)
Theorem put_malformed_id_fails_after_validation (env : Env) (w : World)
    (id : string) (req_body : value) :
  castObjectId id = None →
  router.put_id env id req_body w =
    (inl match weatherSchema.parse req_body with
         | inl zod_error => zod_error
         | inr _ => CastError "_id"
         end, w) ∧
  http_status (router.put_id env id req_body w).1 = 500%nat.
Proof.
  intros C. rewrite put_id_outcome, C.
  pose proof (parse_cases req_body) as H.
  destruct (weatherSchema.parse req_body) as [e|d].
  - destruct H as (_ & issues & -> & _). split; reflexivity.
  - split; reflexivity.
Qed.

Lemma put_malformed_id_fails_after_validation_witness :
  castObjectId "not-an-id" = None ∧
  router.put_id env_no_key "not-an-id"
      (VObj (props_of (makeFakeWeather "Testville"))) three_cities
    = (inl (CastError "_id"), three_cities) ∧
  (router.put_id env_no_key "not-an-id" (VObj json_manual_props) three_cities).1
    = inl (ZodError [ {| z.code := z.invalid_type; z.path := ["fetchedAt"] |} ]).
Proof.
  split; [reflexivity|]. split.
  - apply (put_malformed_id_fails_after_validation env_no_key three_cities
      "not-an-id" (VObj (props_of (makeFakeWeather "Testville"))) eq_refl).
  - destruct (put_malformed_id_fails_after_validation env_no_key three_cities
      "not-an-id" (VObj json_manual_props) eq_refl) as [-> _]. reflexivity.
Defined.

(** ** What a listing leaves out *)

Lemma NoDup_all w : NoDup (Weather.all w).
Proof.
  unfold Weather.all. apply NoDup_fmap_2_strong; [|apply NoDup_map_to_list].
  intros [k1 d1] [k2 d2] _ _ [= -> ->]. reflexivity.
Qed.

Lemma NoDup_find query w : NoDup (Weather.find query w).
Proof. unfold Weather.find. apply NoDup_filter, NoDup_all. Qed.

Lemma elem_of_find query w d :
  d ∈ Weather.find query w ↔
  collection w !! _id d = Some (document d) ∧ Weather.matches query d = true.
Proof.
  unfold Weather.find. rewrite list_elem_of_filter, elem_of_all.
  rewrite Is_true_true. tauto.
Qed.

(** X11.  [GET /] lists stored records and no record twice, and what a
    limit cuts off is the old end: a matching record that is not listed is
    no newer than any record that is.  Nothing is cut off when the limit is
    0 or at least the number of matching records. *)
Theorem listing_keeps_the_newest (w : World) (q : Query) (n : Z) :
  requested_limit q = Some n →
  0 ≤ n →
  ∃ docs omitted,
    router.get_root q w = Some (inr {| status := 200; body := JDocs docs |}, w) ∧
    NoDup (docs ++ omitted) ∧
    (∀ d, d ∈ docs ++ omitted ↔
          collection w !! _id d = Some (document d) ∧
          Weather.matches (requested_city q) d = true) ∧
    (∀ a b, a ∈ docs → b ∈ omitted →
            fetchedAt (data (document b)) ≤ fetchedAt (data (document a))) ∧
    (n = 0 ∨ (length (docs ++ omitted) ≤ Z.to_nat n)%nat → omitted = []).
Proof.
  intros L N. destruct (Number_of_limit q n L) as (num & EN & EZ).
  unfold router.get_root. rewrite EN, query_of_city. cbn [mbind option_bind].
  unfold Weather.find_sort_limit, Weather.limit. rewrite EZ.
  set (sorted := merge_sort Weather.newest_first (Weather.find (requested_city q) w)).
  assert (StronglySorted Weather.newest_first sorted) as SS
    by (apply StronglySorted_merge_sort; apply _).
  assert (sorted ≡ₚ Weather.find (requested_city q) w) as PP
    by (apply merge_sort_Permutation).
  assert (NoDup sorted) as ND by (rewrite PP; apply NoDup_find).
  assert (∀ d, d ∈ sorted ↔
            collection w !! _id d = Some (document d) ∧
            Weather.matches (requested_city q) d = true) as MM
    by (intros d; rewrite PP; apply elem_of_find).
  destruct (n =? 0) eqn:Z0.
  - exists sorted, []. cbn [mbind option_bind]. rewrite app_nil_r.
    split; [reflexivity|]. split; [exact ND|]. split; [exact MM|].
    split; [|reflexivity]. intros a b _ B. inversion B.
  - apply Z.eqb_neq in Z0. assert ((0 <? n) = true) as -> by lia.
    exists (take (Z.to_nat n) sorted), (drop (Z.to_nat n) sorted).
    cbn [mbind option_bind]. rewrite take_drop.
    split; [reflexivity|]. split; [exact ND|]. split; [exact MM|].
    split.
    + intros a b A B. rewrite <- (take_drop (Z.to_nat n) sorted) in SS.
      apply (StronglySorted_app_1_elem_of _ _ _ a b SS A B).
    + intros [E|E]; [lia|]. apply drop_ge, E.
Qed.

Lemma listing_keeps_the_newest_witness :
  let q := {| q_city := None; q_limit := Some "2" |} in
  ∃ docs omitted,
    router.get_root q three_cities
      = Some (inr {| status := 200; body := JDocs docs |}, three_cities) ∧
    length docs = 2%nat ∧
    NoDup (docs ++ omitted).
Proof.
  cbv zeta.
  destruct (listing_keeps_the_newest three_cities
    {| q_city := None; q_limit := Some "2" |} 2 eq_refl ltac:(lia))
    as (docs & omitted & E & ND & _).
  exists docs, omitted. split; [exact E|]. split; [|exact ND].
  vm_compute in E. injection E as <-. reflexivity.
Defined.

(** ** The two ways to fetch *)

(** X12.  A [POST /] whose body is an object without a truthy [manual] is
    the same request as [POST /fetch]: with the [city] of the body where
    [POST /fetch] reads the [city] of the query, both have the same
    outcome and leave the same world, whatever else the body holds. *)
Theorem post_without_manual_is_post_fetch (env : Env) (w : World)
    (o : list (string * value)) (query_city : option string) :
  truthy (VObj o).["manual"] = false →
  (VObj o).["city"] = of_option query_city →
  router.post_root env (VObj o) w = router.post_fetch env query_city w.
Proof.
  intros M C. unfold router.post_root, router.post_fetch, router.destructure.
  cbn [nullish]. unfold bind at 1, ret at 1. rewrite M. cbn [own_props].
  rewrite get_without_manual by discriminate. rewrite C. reflexivity.
Qed.

Lemma post_without_manual_is_post_fetch_witness :
  let o := [("city", VStr "London"); ("temp", VStr "ignored")] in
  router.post_root env_with_key (VObj o) three_cities
    = router.post_fetch env_with_key (Some "London") three_cities ∧
  http_status (router.post_root env_with_key (VObj o) three_cities).1 = 201%nat.
Proof.
  cbv zeta.
  rewrite (post_without_manual_is_post_fetch env_with_key three_cities
    [("city", VStr "London"); ("temp", VStr "ignored")] (Some "London")
    eq_refl eq_refl).
  split; reflexivity.
Defined.

(** ** Refreshing a record from the page *)

Lemma fetchJSON_delete id w :
  page.fetchJSON (router.delete_id id) w =
    match castObjectId id with
    | None => (inl (CastError "_id"), w)
    | Some oid =>
        match collection w !! oid with
        | Some doc => (inr (JDeleted oid),
                       with_collection (delete oid (collection w)) w)
        | None => (inl (createError 404 "Weather record not found"), w)
        end
    end.
Proof.
  unfold page.fetchJSON. rewrite delete_id_outcome.
  destruct (castObjectId id); [|reflexivity].
  destruct (collection w !! _); reflexivity.
Qed.

Lemma fetchJSON_post_fetch env query_city w :
  page.fetchJSON (router.post_fetch env query_city) w =
    match router.post_fetch env query_city w with
    | (inr res, w') => (inr (body res), w')
    | (inl err, w') => (inl err, w')
    end.
Proof.
  unfold page.fetchJSON.
  destruct (router.post_fetch env query_city w) as [[e|res] w'] eqn:E;
    [reflexivity|].
  apply post_fetch_success in E as (d & w1 & _ & _ & -> & _). reflexivity.
Qed.

Lemma post_fetch_fetchedAt env query_city w res w' :
  router.post_fetch env query_city w = (inr res, w') →
  ∃ new, body res = JDoc new ∧ fetchedAt (data (document new)) = Date_now env.
Proof.
  intros E.
  assert (∃ k data,
    OPENWEATHER_API_KEY env = Some k ∧ k ≠ "" ∧
    provider env (city_or_default env (of_option query_city)) k = Resolved data ∧
    nullish data = false) as (k & data & K & N & R & D).
  { revert E. unfold router.post_fetch. unfold bind at 1.
    fold (city_or_default env (of_option query_city)).
    unfold router.fetch_candidate.
    destruct (OPENWEATHER_API_KEY env) as [k|]; [|discriminate].
    cbn [truthy]. destruct (String.eqb_spec k ""); [discriminate|].
    cbn [negb]. unfold fetchWeather, bind, axios.get.
    destruct (provider env _ k) as [data|st] eqn:R; [|discriminate].
    destruct (nullish data) eqn:D; [discriminate|]. intros _.
    exists k, data. auto. }
  rewrite (post_fetch_with_data env w query_city k data K N R D) in E.
  rewrite parse_create_outcome in E.
  pose proof (parse_cases (normalized (Date_now env) data)) as H.
  destruct (weatherSchema.parse (normalized (Date_now env) data)) as [err|d];
    [discriminate|].
  destruct H as [_ T].
  destruct T as (_ & _ & _ & _ & _ & _ & _ & _ & _ & _ & _ & Tat).
  cbn in Tat. injection Tat as Tat.
  destruct (Weather.invalid_paths d); [|discriminate].
  cbv zeta in E. injection E as <- _. eexists. split; [reflexivity|].
  cbn. congruence.
Qed.

(** X13.  The Refresh button of the page is a delete followed by a fetch,
    and the two are not one step.  The record is deleted whatever happens
    next: if the fetch then fails (no API key, a city the provider does not
    know, an unusable answer) the collection has lost the record and gained
    nothing; if it succeeds, one new record stands in for the old one, with
    new timestamps. *)
Theorem refresh_deletes_before_it_fetches (env : Env) (w : World)
    (id city : string) (oid : ObjectId) (old : Document) :
  castObjectId id = Some oid →
  collection w !! oid = Some old →
  let deleted := with_collection (delete oid (collection w)) w in
  match page.refreshWeather env id city w with
  | (inl err, w') =>
      router.post_fetch env (Some city) deleted = (inl err, w') ∧
      collection w' = delete oid (collection w) ∧
      S (size (collection w')) = size (collection w)
  | (inr record, w') =>
      ∃ new,
        record = JDoc new ∧
        router.post_fetch env (Some city) deleted
          = (inr {| status := 201; body := record |}, w') ∧
        collection w' = <[_id new := document new]> (delete oid (collection w)) ∧
        size (collection w') = size (collection w) ∧
        createdAt (document new) = Date_now env ∧
        fetchedAt (data (document new)) = Date_now env
  end.
Proof.
  intros Ci L.
  unfold page.refreshWeather, bind, ret. rewrite !fetchJSON_delete, Ci, L.
  cbv zeta. rewrite fetchJSON_post_fetch.
  set (deleted := with_collection (delete oid (collection w)) w).
  assert (S (size (collection deleted)) = size (collection w)) as Sz.
  { unfold deleted. cbn [collection with_collection].
    rewrite <- (insert_delete_id (collection w) oid old) at 2 by exact L.
    rewrite map_size_insert_None by apply lookup_delete_eq. reflexivity. }
  destruct (router.post_fetch env (Some city) deleted) as [[e|res] w'] eqn:E.
  - split; [reflexivity|].
    apply post_fetch_failure in E. rewrite E. split; [reflexivity | exact Sz].
  - pose proof E as E'.
    apply post_fetch_success in E as (d & w1 & C & V & -> & ->).
    destruct (post_fetch_fetchedAt _ _ _ _ _ E') as (new & [= <-] & F).
    eexists. split; [reflexivity|]. split; [reflexivity|].
    cbn [collection with_collection _id document body createdAt data].
    split; [reflexivity|].
    split; [rewrite map_size_insert_None by apply fresh_not_stored; exact Sz|].
    split; [reflexivity|]. exact F.
Qed.

Lemma refresh_deletes_before_it_fetches_witness :
  let id := "000000000000000000000001" in
  collection three_cities !! 1%N
    = Some {| data := makeFakeWeather "City2";
              createdAt := Date_now env_no_key;
              updatedAt := Date_now env_no_key; __v := 0 |} ∧
  ∃ w',
    page.refreshWeather env_no_key id "City2" three_cities
      = (inl (createError 500 "Missing OPENWEATHER_API_KEY"), w') ∧
    collection w' !! 1%N = None ∧
    size (collection w') = 2%nat.
Proof.
  cbv zeta. split; [reflexivity|].
  pose proof (refresh_deletes_before_it_fetches env_no_key three_cities
    "000000000000000000000001" "City2" 1%N _ eq_refl eq_refl) as H.
  cbv zeta in H.
  destruct (page.refreshWeather env_no_key "000000000000000000000001" "City2"
              three_cities) as [[e|record] w'] eqn:E; [|discriminate E].
  destruct H as (_ & C & _). exists w'.
  split; [vm_compute in E; injection E as <- _; reflexivity|].
  rewrite C. split; [apply lookup_delete_eq | reflexivity].
Defined.

(** ** Signing in *)

Lemma google_verify_success profile users user users' :
  auth.google_verify profile users = Some (inr user, users') →
  ∃ id,
    auth.serializeUser user = VStr (String.append "google|" id) ∧
    users' = <[String.append "google|" id := user]> users.
Proof.
  unfold auth.google_verify.
  destruct (JSText.ToString profile.["id"]) as [id|]; [|discriminate].
  cbn [mbind option_bind].
  destruct (auth.values profile.["emails"]) as [e|emails]; [discriminate|].
  destruct (auth.values profile.["photos"]) as [e|photos]; [discriminate|].
  cbv zeta. intros [= <- <-]. exists id. split; reflexivity.
Qed.

Lemma linkedin_verify_success resp users user users' :
  auth.linkedin_verify resp users = Some (inr user, users') →
  ∃ id,
    auth.serializeUser user = VStr (String.append "linkedin|" id) ∧
    users' = <[String.append "linkedin|" id := user]> users ∧
    truthy user.["id"] = true ∧
    truthy user.["displayName"] = true.
Proof.
  unfold auth.linkedin_verify.
  destruct resp as [|status [text|]|[data|]]; try discriminate.
  destruct (nullish data); [discriminate|]. cbv zeta.
  destruct (truthy (data.["sub"] ||: data.["id"])) eqn:T; cbn [negb];
    [|discriminate].
  destruct (auth.displayName_of data) as [name|] eqn:D; [|discriminate].
  cbn [mbind option_bind].
  destruct (JSText.ToString (data.["sub"] ||: data.["id"])) as [id|]; [|discriminate].
  cbn [mbind option_bind]. intros [= <- <-]. exists id.
  split; [reflexivity|]. split; [reflexivity|]. split; [exact T|].
  change (truthy name = true).
  revert D. unfold auth.displayName_of.
  destruct (truthy data.["name"]) eqn:N; [intros [= <-]; exact N|].
  destruct (JSText.ToString (data.["given_name"] ||: VStr "")) as [given|];
    [|discriminate].
  destruct (JSText.ToString (data.["family_name"] ||: VStr "")) as [family|];
    [|discriminate].
  cbn [mbind option_bind]. intros [= <-]. unfold or_else.
  destruct (truthy (VStr _)) eqn:U; [exact U | reflexivity].
Qed.

Lemma verify_failure_stores_nothing profile resp users e users' :
  auth.google_verify profile users = Some (inl e, users') ∨
  auth.linkedin_verify resp users = Some (inl e, users') →
  users' = users.
Proof.
  intros [H|H]; revert H.
  - unfold auth.google_verify.
    destruct (JSText.ToString profile.["id"]) as [id|]; [|discriminate].
    cbn [mbind option_bind].
    destruct (auth.values profile.["emails"]) as [e1|emails];
      [intros [= _ <-]; reflexivity|].
    destruct (auth.values profile.["photos"]) as [e2|photos];
      [intros [= _ <-]; reflexivity | discriminate].
  - unfold auth.linkedin_verify.
    destruct resp as [|status [text|]|[data|]];
      try (intros [= _ <-]; reflexivity).
    destruct (nullish data); [intros [= _ <-]; reflexivity|]. cbv zeta.
    destruct (negb _); [intros [= _ <-]; reflexivity|].
    destruct (auth.displayName_of data); [|discriminate].
    cbn [mbind option_bind].
    destruct (JSText.ToString _); discriminate.
Qed.

Lemma deserialize_stored users key user :
  truthy user = true →
  auth.deserializeUser (<[key := user]> users) (VStr key) = user.
Proof.
  intros T. unfold auth.deserializeUser. rewrite lookup_insert_eq.
  cbn [default from_option id]. unfold or_else. rewrite T. reflexivity.
Qed.

Lemma deserialize_other users key user k :
  k ≠ key →
  auth.deserializeUser (<[key := user]> users) (VStr k)
  = auth.deserializeUser users (VStr k).
Proof.
  intros N. unfold auth.deserializeUser. rewrite lookup_insert_ne by congruence.
  reflexivity.
Qed.

Lemma user_is_truthy profile resp users user users' :
  auth.google_verify profile users = Some (inr user, users') ∨
  auth.linkedin_verify resp users = Some (inr user, users') →
  truthy user = true.
Proof.
  intros [H|H]; revert H.
  - unfold auth.google_verify.
    destruct (JSText.ToString profile.["id"]) as [id|]; [|discriminate].
    cbn [mbind option_bind].
    destruct (auth.values profile.["emails"]) as [e1|emails]; [discriminate|].
    destruct (auth.values profile.["photos"]) as [e2|photos]; [discriminate|].
    intros [= <- _]. reflexivity.
  - unfold auth.linkedin_verify.
    destruct resp as [|status [text|]|[data|]]; try discriminate.
    destruct (nullish data); [discriminate|]. cbv zeta.
    destruct (negb _); [discriminate|].
    destruct (auth.displayName_of data); [|discriminate].
    cbn [mbind option_bind].
    destruct (JSText.ToString _); [|discriminate].
    cbn [mbind option_bind]. intros [= <- _]. reflexivity.
Qed.

(** X14.  A sign-in that succeeds, through Google or through LinkedIn, is
    remembered: the key [serializeUser] puts in the session is a string,
    the directory holds the user under it, and [deserializeUser] of that
    key gives back the very user the callback handed to passport.  What
    [deserializeUser] answers for every other key is what it answered
    before. *)
Theorem sign_in_is_remembered (users users' : gmap string value) (profile : value)
    (resp : auth.Userinfo) (user : value) :
  auth.google_verify profile users = Some (inr user, users') ∨
  auth.linkedin_verify resp users = Some (inr user, users') →
  auth.deserializeUser users' (auth.serializeUser user) = user ∧
  ∃ key,
    auth.serializeUser user = VStr key ∧
    users' !! key = Some user ∧
    ∀ k, k ≠ key →
         auth.deserializeUser users' (VStr k) = auth.deserializeUser users (VStr k).
Proof.
  intros H. pose proof (user_is_truthy _ _ _ _ _ H) as T.
  assert (∃ key, auth.serializeUser user = VStr key ∧
                 users' = <[key := user]> users) as (key & S & ->).
  { destruct H as [H|H].
    - apply google_verify_success in H as (id & S & U). eauto.
    - apply linkedin_verify_success in H as (id & S & U & _). eauto. }
  rewrite S. split; [apply deserialize_stored, T|].
  exists key. split; [reflexivity|]. split; [apply lookup_insert_eq|].
  intros k N. apply deserialize_other, N.
Qed.

Lemma sign_in_is_remembered_witness :
  let profile := VObj [ ("id", VStr "1234");
                        ("displayName", VStr "Ada");
                        ("emails", VArr [VObj [("value", VStr "ada@example.org")]]) ] in
  ∃ user users',
    auth.google_verify profile ∅ = Some (inr user, users') ∧
    auth.serializeUser user = VStr "google|1234" ∧
    user.["emails"] = VArr [VStr "ada@example.org"] ∧
    user.["photos"] = VArr [] ∧
    auth.deserializeUser users' (VStr "google|1234") = user ∧
    auth.deserializeUser users' (VStr "linkedin|1234") = VNull.
Proof.
  cbv zeta.
  destruct (auth.google_verify
    (VObj [ ("id", VStr "1234"); ("displayName", VStr "Ada");
            ("emails", VArr [VObj [("value", VStr "ada@example.org")]]) ]) ∅)
    as [[[e|user] users']|] eqn:E; try discriminate E.
  destruct (sign_in_is_remembered ∅ users' _ auth.Unreachable user (or_introl E))
    as (R & key & S & _ & O).
  assert (auth.serializeUser user = VStr "google|1234") as K
    by (vm_compute in E; injection E as <- _; reflexivity).
  exists user, users'. split; [reflexivity|]. split; [exact K|].
  split; [vm_compute in E; injection E as <- _; reflexivity|].
  split; [vm_compute in E; injection E as <- _; reflexivity|].
  rewrite K in R, S. injection S as <-.
  split; [exact R|]. rewrite O by discriminate. reflexivity.
Defined.

Lemma prefixes_differ a b :
  String.append "google|" a ≠ String.append "linkedin|" b.
Proof. discriminate. Qed.

(** X15.  The two providers do not share keys: a user who signed in with
    Google stays who they are whoever signs in with LinkedIn afterwards,
    whatever id LinkedIn reports, and the other way round. *)
Theorem sign_in_elsewhere_keeps_the_user (users0 users1 users2 : gmap string value)
    (profile : value) (resp : auth.Userinfo) (user : value)
    (outcome : auth.failure + value) :
  (auth.google_verify profile users0 = Some (inr user, users1) ∧
   auth.linkedin_verify resp users1 = Some (outcome, users2)) ∨
  (auth.linkedin_verify resp users0 = Some (inr user, users1) ∧
   auth.google_verify profile users1 = Some (outcome, users2)) →
  auth.deserializeUser users2 (auth.serializeUser user) = user.
Proof.
  intros [[H1 H2]|[H1 H2]].
  - pose proof (user_is_truthy _ auth.Unreachable _ _ _ (or_introl H1)) as T.
    apply google_verify_success in H1 as (id & S & ->). rewrite S.
    destruct outcome as [e|other].
    + rewrite (verify_failure_stores_nothing VUndefined _ _ _ _ (or_intror H2)).
      apply deserialize_stored, T.
    + apply linkedin_verify_success in H2 as (id2 & _ & -> & _).
      rewrite deserialize_other by apply prefixes_differ.
      apply deserialize_stored, T.
  - pose proof (user_is_truthy VUndefined _ _ _ _ (or_intror H1)) as T.
    apply linkedin_verify_success in H1 as (id & S & -> & _). rewrite S.
    destruct outcome as [e|other].
    + rewrite (verify_failure_stores_nothing _ auth.Unreachable _ _ _ (or_introl H2)).
      apply deserialize_stored, T.
    + apply google_verify_success in H2 as (id2 & _ & ->).
      rewrite deserialize_other
        by (intros E; symmetry in E; revert E; apply prefixes_differ).
      apply deserialize_stored, T.
Qed.

Lemma sign_in_elsewhere_keeps_the_user_witness :
  let profile := VObj [("id", VStr "1234"); ("displayName", VStr "Ada")] in
  let resp := auth.Ok (Some (VObj [("sub", VStr "1234"); ("given_name", VStr "Ada")])) in
  ∃ ada users1 other users2,
    auth.google_verify profile ∅ = Some (inr ada, users1) ∧
    auth.linkedin_verify resp users1 = Some (inr other, users2) ∧
    other.["id"] = ada.["id"] ∧
    other.["displayName"] = VStr "Ada" ∧
    size users2 = 2%nat ∧
    auth.deserializeUser users2 (auth.serializeUser ada) = ada.
Proof.
  cbv zeta.
  destruct (auth.google_verify
    (VObj [("id", VStr "1234"); ("displayName", VStr "Ada")]) ∅)
    as [[[e|ada] users1]|] eqn:E1; try discriminate E1.
  destruct (auth.linkedin_verify
    (auth.Ok (Some (VObj [("sub", VStr "1234"); ("given_name", VStr "Ada")]))) users1)
    as [[[e|other] users2]|] eqn:E2;
    [vm_compute in E1; injection E1 as <- <-; discriminate E2
    | | vm_compute in E1; injection E1 as <- <-; discriminate E2].
  pose proof (sign_in_elsewhere_keeps_the_user ∅ users1 users2 _ _ ada (inr other)
    (or_introl (conj E1 E2))) as R.
  exists ada, users1, other, users2.
  split; [reflexivity|]. split; [exact E2|].
  vm_compute in E1. injection E1 as <- <-.
  vm_compute in E2. injection E2 as <- <-.
  split; [reflexivity|]. split; [reflexivity|]. split; [reflexivity|]. exact R.
Defined.


(** ** The collection holds valid records only *)

Lemma records_valid_collection w w' :
  collection w' = collection w → records_valid w → records_valid w'.
Proof. unfold records_valid. intros ->. auto. Qed.

Lemma parsed_is_fixed payload d :
  weatherSchema.parse payload = inr d →
  weatherSchema.parse (VObj (props_of d)) = inr d.
Proof. intros E. apply parse_props_of, (parsed_satisfies _ _ E). Qed.

Lemma parse_create_keeps_valid env candidate w :
  records_valid w →
  records_valid
    ((let* parsed := lift (weatherSchema.parse candidate) in
      let* created := Weather.create env parsed in
      ret {| status := 201%nat; body := JDoc created |}) w).2.
Proof.
  intros I. rewrite parse_create_outcome.
  destruct (weatherSchema.parse candidate) as [e|d] eqn:P; [exact I|].
  destruct (Weather.invalid_paths d) eqn:V; [|exact I].
  cbv zeta. cbn [snd]. unfold records_valid. cbn [collection with_collection].
  apply map_Forall_insert_2; [|exact I]. cbn [data].
  split; [apply (parsed_is_fixed _ _ P) | apply invalid_paths_nil_city, V].
Qed.

Lemma post_root_keeps_valid env req_body w :
  records_valid w → records_valid (router.post_root env req_body w).2.
Proof.
  intros I. unfold router.post_root, router.destructure.
  destruct (nullish req_body); [exact I|].
  unfold bind at 1, ret at 1. unfold bind at 1.
  destruct (truthy _).
  - unfold ret at 1. apply (parse_create_keeps_valid env _ w I).
  - pose proof (fetch_candidate_collection env
      ((VObj (filter (λ kv : string * value, kv.1 ≠ "manual") (own_props req_body))).["city"]
         ||: of_option (DEFAULT_CITY env) ||: VStr "Philadelphia") w) as C.
    destruct (router.fetch_candidate _ _ w) as [[e|candidate] w']; cbn in C.
    + eapply records_valid_collection; eauto.
    + apply (parse_create_keeps_valid env _ w').
      eapply records_valid_collection; eauto.
Qed.

Lemma post_fetch_keeps_valid env query_city w :
  records_valid w → records_valid (router.post_fetch env query_city w).2.
Proof.
  intros I. unfold router.post_fetch. unfold bind at 1.
  pose proof (fetch_candidate_collection env
    (of_option query_city ||: of_option (DEFAULT_CITY env) ||: VStr "Philadelphia") w) as C.
  destruct (router.fetch_candidate _ _ w) as [[e|candidate] w']; cbn in C.
  - eapply records_valid_collection; eauto.
  - apply (parse_create_keeps_valid env _ w').
    eapply records_valid_collection; eauto.
Qed.

Lemma put_id_keeps_valid env id req_body w :
  records_valid w → records_valid (router.put_id env id req_body w).2.
Proof.
  intros I. rewrite put_id_outcome.
  destruct (weatherSchema.parse req_body) as [e|d] eqn:P; [exact I|].
  destruct (castObjectId id) as [oid|]; [|exact I].
  destruct (Weather.invalid_paths d) eqn:V; [|exact I].
  destruct (collection w !! oid) as [old|]; [|exact I].
  cbv zeta. cbn [snd]. unfold records_valid. cbn [collection with_collection].
  apply map_Forall_insert_2; [|exact I]. cbn [data].
  split; [apply (parsed_is_fixed _ _ P) | apply invalid_paths_nil_city, V].
Qed.

Lemma delete_id_keeps_valid id w :
  records_valid w → records_valid (router.delete_id id w).2.
Proof.
  intros I. rewrite delete_id_outcome.
  destruct (castObjectId id) as [oid|]; [|exact I].
  destruct (collection w !! oid) as [old|]; [|exact I].
  cbn [snd]. unfold records_valid. cbn [collection with_collection].
  apply map_Forall_delete, I.
Qed.

Lemma three_cities_valid : records_valid three_cities.
Proof.
  unfold three_cities. cbv zeta.
  do 3 apply post_root_keeps_valid. apply map_Forall_empty.
Defined.

(** X17.  The collection holds valid records only: if every stored record
    is one the Validation Layer maps to itself and has a non-empty city,
    this is still so after any request.  Such a record can therefore be
    sent back as it is: a [PUT] of a stored record under its own id is
    answered 200 and changes nothing of the document but [updatedAt]. *)
Theorem stored_records_stay_valid (env : Env) (w : World) :
  records_valid w →
  (∀ req_body, records_valid (router.post_root env req_body w).2) ∧
  (∀ query_city, records_valid (router.post_fetch env query_city w).2) ∧
  (∀ id req_body, records_valid (router.put_id env id req_body w).2) ∧
  (∀ id, records_valid (router.delete_id id w).2) ∧
  (∀ id city, records_valid (page.refreshWeather env id city w).2) ∧
  ∀ id oid doc,
    castObjectId id = Some oid →
    collection w !! oid = Some doc →
    let doc' := {| data := data doc; createdAt := createdAt doc;
                   updatedAt := Date_now env; __v := __v doc |} in
    router.put_id env id (VObj (props_of (data doc))) w =
      (inr {| status := 200; body := JDoc {| _id := oid; document := doc' |} |},
       with_collection (<[oid := doc']> (collection w)) w).
Proof.
  intros I.
  split; [intros; apply post_root_keeps_valid, I|].
  split; [intros; apply post_fetch_keeps_valid, I|].
  split; [intros; apply put_id_keeps_valid, I|].
  split; [intros; apply delete_id_keeps_valid, I|].
  split.
  - intros id city. unfold page.refreshWeather, bind, ret.
    pose proof (delete_id_keeps_valid id w I) as D.
    unfold page.fetchJSON at 1.
    destruct (router.delete_id id w) as [[e|res] w1]; [exact D|].
    cbn [snd] in D.
    destruct ((200 <=? status res)%nat && (status res <? 300)%nat); [|exact D].
    pose proof (post_fetch_keeps_valid env (Some city) w1 D) as F.
    unfold page.fetchJSON.
    destruct (router.post_fetch env (Some city) w1) as [[e|res'] w2]; [exact F|].
    destruct ((200 <=? status res')%nat && (status res' <? 300)%nat); exact F.
  - intros id oid doc C L doc'. destruct (I oid doc L) as [P N].
    rewrite put_id_outcome, P, C.
    rewrite (parsed_invalid_paths _ _ P), checkRequired_nonempty by exact N.
    cbn [Weather.check]. rewrite L. reflexivity.
Qed.

Lemma stored_records_stay_valid_witness :
  records_valid three_cities ∧
  records_valid
    (router.post_root env_no_key (manual_body (makeFakeWeather "")) three_cities).2 ∧
  http_status
    (router.put_id env_no_key "000000000000000000000002"
       (VObj (props_of (makeFakeWeather "City3"))) three_cities).1 = 200%nat.
Proof.
  split; [exact three_cities_valid|].
  destruct (stored_records_stay_valid env_no_key three_cities three_cities_valid)
    as (Hpost & _ & _ & _ & _ & Hput).
  split; [apply Hpost|].
  pose proof (Hput "000000000000000000000002" 2%N
    {| data := makeFakeWeather "City3"; createdAt := Date_now env_no_key;
       updatedAt := Date_now env_no_key; __v := 0 |} eq_refl eq_refl) as H.
  cbv zeta in H. cbn [data] in H. rewrite H. reflexivity.
Defined.

(** ** Searching from the page *)

Lemma trimStart_head s c rest :
  JSText.trimStart s = String c rest → JSText.is_white_space c = false.
Proof.
  induction s as [|a s IH]; [discriminate|]. cbn [JSText.trimStart].
  destruct (JSText.is_white_space a) eqn:W; [exact IH|].
  intros [= <- _]. exact W.
Qed.

Lemma trimEnd_head c s :
  JSText.is_white_space c = false →
  ∃ rest, JSText.trimEnd (String c s) = String c rest.
Proof.
  intros W. cbn [JSText.trimEnd]. rewrite W.
  destruct (JSText.trimEnd s); eauto.
Qed.

Lemma trimEnd_idem s : JSText.trimEnd (JSText.trimEnd s) = JSText.trimEnd s.
Proof.
  induction s as [|c s IH]; [reflexivity|]. cbn [JSText.trimEnd].
  destruct (JSText.trimEnd s) as [|a r] eqn:E.
  - destruct (JSText.is_white_space c) eqn:W; [reflexivity|].
    cbn [JSText.trimEnd]. rewrite W. reflexivity.
  - cbn [JSText.trimEnd] in *. rewrite IH. reflexivity.
Qed.

Lemma trim_idem s : JSText.trim (JSText.trim s) = JSText.trim s.
Proof.
  unfold JSText.trim.
  destruct (JSText.trimStart s) as [|c t] eqn:E; [reflexivity|].
  pose proof (trimStart_head _ _ _ E) as W.
  destruct (trimEnd_head c t W) as [rest R]. rewrite R.
  cbn [JSText.trimStart]. rewrite W, <- R. apply trimEnd_idem.
Qed.

Lemma post_fetch_calls env query_city w :
  provider_calls (router.post_fetch env query_city w).2
  = provider_calls w
    ++ provider_request env (city_or_default env (of_option query_city)).
Proof.
  unfold router.post_fetch. unfold bind at 1.
  pose proof (fetch_candidate_calls env
    (city_or_default env (of_option query_city)) w) as C.
  unfold city_or_default in *.
  destruct (router.fetch_candidate _ _ w) as [[e|candidate] w1]; cbn in C;
    [exact C|].
  rewrite parse_create_calls. exact C.
Qed.

Lemma fetchJSON_world request w :
  (page.fetchJSON request w).2 = (request w).2.
Proof.
  unfold page.fetchJSON. destruct (request w) as [[e|res] w']; [reflexivity|].
  destruct (andb _ _); reflexivity.
Qed.

(** X18.  The search form of the page sends nothing for a blank text.
    For any other text it asks [POST /fetch] for the trimmed text, which has
    no white space left at either end; the server then asks the provider
    for exactly that city and never for the default city, and the world
    after the search is the world after that one request. *)
Theorem search_asks_for_the_typed_city (env : Env) (w : World) (input : string) :
  match JSText.trim input with
  | EmptyString => page.handleSearch env input w = (inr None, w)
  | city =>
      JSText.trim city = city ∧
      (page.handleSearch env input w).2
        = (router.post_fetch env (Some city) w).2 ∧
      provider_calls (page.handleSearch env input w).2
        = provider_calls w ++ provider_request env (VStr city)
  end.
Proof.
  pose proof (trim_idem input) as T. unfold page.handleSearch. cbv zeta.
  destruct (JSText.trim input) as [|c rest] eqn:E; [reflexivity|].
  cbn [truthy String.eqb negb].
  assert (((let* record := page.fetchJSON
                             (router.post_fetch env (Some (String c rest))) in
            ret (Some record)) w).2
          = (router.post_fetch env (Some (String c rest)) w).2) as H.
  { unfold bind, ret.
    rewrite <- (fetchJSON_world (router.post_fetch env (Some (String c rest))) w).
    destruct (page.fetchJSON _ w) as [[e|r] w']; reflexivity. }
  split; [exact T|]. split; [exact H|]. rewrite H.
  rewrite post_fetch_calls. reflexivity.
Qed.
